(** * Muffin compositor: the Cogl texture helpers of [src/compositor/cogl-utils.c]

    A shallow embedding of the five entry points of [cogl-utils.c] and of the
    two static helpers behind them.  The file-scope statics of the C file are
    a record that is threaded through every function; the calls into Clutter,
    Cogl, GDK and the Muffin logger are requests to an external [World], and
    every function returns, besides its value and the new state, the list of
    external calls it made together with what they answered. *)

From Stdlib Require Import ZArith NArith List String Ascii Bool Lia.
From Stdlib.Strings Require Import Byte.
From ExtLib Require Import Structures.Monad.
Import ListNotations MonadNotation.
Local Open Scope monad_scope.
Local Open Scope Z_scope.

(** ** GLib scalar types *)

(** [gint] is a 32-bit signed integer; products are reduced to that range. *)
Definition gint := Z.
Definition G_MININT : Z := - 2 ^ 31.
Definition G_MAXINT : Z := 2 ^ 31 - 1.
Definition in_gint (z : Z) : Prop := G_MININT <= z <= G_MAXINT.
Definition gint_wrap (z : Z) : gint := (z + 2 ^ 31) mod 2 ^ 32 - 2 ^ 31.
Definition gint_mul (a b : gint) : gint := gint_wrap (a * b).

(** GLib's [MIN(a, b)] is [((a) < (b)) ? (a) : (b)]. *)
Definition MIN (a b : Z) : Z := if a <? b then a else b.

Definition guint8 := byte.
Definition gboolean := bool.

(** Pointers are addresses; [NULL] is address 0. *)
Definition pointer := N.
Definition NULL : pointer := 0%N.
Definition is_null (p : pointer) : bool := (p =? NULL)%N.

(** ** The Cogl, Clutter and GDK types the file uses *)

Definition CoglHandle := pointer.
Definition COGL_INVALID_HANDLE : CoglHandle := NULL.
Definition CoglTexture := pointer.
Definition CoglContext := pointer.
Definition ClutterBackend := pointer.
Definition GdkScreen := pointer.

(** [COGL_TEXTURE (x)] is a checked pointer cast. *)
Definition COGL_TEXTURE (h : pointer) : CoglTexture := h.

(** [CoglTextureFlags] is a bit mask; the empty mask is [COGL_TEXTURE_NONE]. *)
Definition CoglTextureFlags := N.
Definition COGL_TEXTURE_NONE : CoglTextureFlags := 0%N.

Inductive CoglPixelFormat : Type :=
| COGL_PIXEL_FORMAT_ANY
| COGL_PIXEL_FORMAT_A_8
| COGL_PIXEL_FORMAT_RGB_565
| COGL_PIXEL_FORMAT_RGB_888
| COGL_PIXEL_FORMAT_BGR_888
| COGL_PIXEL_FORMAT_RGBA_8888
| COGL_PIXEL_FORMAT_BGRA_8888
| COGL_PIXEL_FORMAT_ARGB_8888
| COGL_PIXEL_FORMAT_ABGR_8888
| COGL_PIXEL_FORMAT_RGBA_8888_PRE
| COGL_PIXEL_FORMAT_BGRA_8888_PRE
| COGL_PIXEL_FORMAT_ARGB_8888_PRE
| COGL_PIXEL_FORMAT_ABGR_8888_PRE.

Inductive CoglFeatureID : Type :=
| COGL_FEATURE_ID_TEXTURE_NPOT_BASIC
| COGL_FEATURE_ID_TEXTURE_NPOT_MIPMAP
| COGL_FEATURE_ID_TEXTURE_NPOT_REPEAT
| COGL_FEATURE_ID_TEXTURE_NPOT
| COGL_FEATURE_ID_TEXTURE_RECTANGLE.

(** A [CoglError] is a [GError]: what the constructors store through their
    [CoglError **] argument, or nothing ([None] is the [NULL] left there). *)
Record CoglError : Type := mkError
  { error_domain : N;
    error_code : Z;
    error_message : string }.

(** What the preprocessor decides: the value of
    [COGL_VERSION < COGL_VERSION_ENCODE (1, 18, 0)] and the expansion of
    Clutter's macro [CLUTTER_CAIRO_FORMAT_ARGB32]. *)
Record build : Type := mkBuild
  { cogl_before_1_18 : bool;
    CLUTTER_CAIRO_FORMAT_ARGB32 : CoglPixelFormat }.

(** Cogl's colour helpers are pure functions of a [CoglColor]. *)
Class CoglColorAPI : Type :=
  { CoglColor : Type;
    cogl_color_set_from_4ub : guint8 -> guint8 -> guint8 -> guint8 -> CoglColor;
    cogl_color_premultiply : CoglColor -> CoglColor;
    cogl_color_get_red_byte : CoglColor -> guint8;
    cogl_color_get_green_byte : CoglColor -> guint8;
    cogl_color_get_blue_byte : CoglColor -> guint8;
    cogl_color_get_alpha_byte : CoglColor -> guint8 }.

(** ** External calls *)

(** One constructor per library function the file calls, with the arguments
    in the order of the C call.  The argument that exists only before
    Cogl 1.18 is an [option]. *)
Inductive call : Type :=
| Clutter_get_default_backend
| Clutter_backend_get_cogl_context (backend : ClutterBackend)
| Cogl_has_feature (ctx : CoglContext) (feature : CoglFeatureID)
| Gdk_screen_get_default
| Gdk_screen_get_width (screen : GdkScreen)
| Gdk_screen_get_height (screen : GdkScreen)
| Cogl_texture_new_from_data (width height : gint) (flags : CoglTextureFlags)
    (format internal_format : CoglPixelFormat) (rowstride : gint)
    (data : list byte)
| Cogl_texture_2d_new_from_data (ctx : CoglContext) (width height : gint)
    (format : CoglPixelFormat) (pre_1_18 : option CoglPixelFormat)
    (rowstride : gint) (data : list byte)
| Cogl_texture_new_from_file (filename : string) (flags : CoglTextureFlags)
    (internal_format : CoglPixelFormat)
| Cogl_texture_2d_new_from_file (ctx : CoglContext) (filename : string)
    (pre_1_18 : option CoglPixelFormat)
| Cogl_texture_new_with_size (width height : gint) (flags : CoglTextureFlags)
    (internal_format : CoglPixelFormat)
| Cogl_texture_2d_new_with_size (ctx : CoglContext) (width height : gint)
    (pre_1_18 : option CoglPixelFormat)
| Cogl_material_new
| Cogl_material_set_layer (material : CoglHandle) (layer_index : Z)
    (texture : CoglHandle)
| Cogl_material_copy (source : CoglHandle)
| Cogl_handle_unref (handle : CoglHandle)
| Cogl_error_free (error : CoglError)
| Meta_verbose (text : string).

(** What each call gives back.  A constructor that takes a [CoglError **]
    gives the handle and the error it may have stored. *)
Definition answer (c : call) : Type :=
  match c with
  | Clutter_get_default_backend => ClutterBackend
  | Clutter_backend_get_cogl_context _ => CoglContext
  | Cogl_has_feature _ _ => gboolean
  | Gdk_screen_get_default => GdkScreen
  | Gdk_screen_get_width _ => gint
  | Gdk_screen_get_height _ => gint
  | Cogl_texture_new_from_data _ _ _ _ _ _ _ => CoglHandle
  | Cogl_texture_2d_new_from_data _ _ _ _ _ _ _ =>
      (CoglHandle * option CoglError)%type
  | Cogl_texture_new_from_file _ _ _ => (CoglHandle * option CoglError)%type
  | Cogl_texture_2d_new_from_file _ _ _ => (CoglHandle * option CoglError)%type
  | Cogl_texture_new_with_size _ _ _ _ => CoglHandle
  | Cogl_texture_2d_new_with_size _ _ _ _ => CoglHandle
  | Cogl_material_new => CoglHandle
  | Cogl_material_set_layer _ _ _ => unit
  | Cogl_material_copy _ => CoglHandle
  | Cogl_handle_unref _ => unit
  | Cogl_error_free _ => unit
  | Meta_verbose _ => unit
  end.

Inductive event : Type :=
| Ev (c : call) (r : answer c).

Definition trace := list event.

(** The libraries behind the calls: a state of their own and an answer to
    every call.  [live] and [layer] are what an observer of Cogl's object
    store sees: which handles are allocated, and which texture a material
    has at a layer index. *)
Class World : Type :=
  { W : Type;
    respond : forall c : call, W -> answer c * W;
    live : W -> CoglHandle -> Prop;
    layer : W -> CoglHandle -> Z -> option CoglHandle }.

(** ** Classifying events *)

Definition is_backend_query (e : event) : bool :=
  match e with
  | Ev Clutter_get_default_backend _
  | Ev (Clutter_backend_get_cogl_context _) _
  | Ev (Cogl_has_feature _ _) _ => true
  | _ => false
  end.

Definition is_screen_query (e : event) : bool :=
  match e with
  | Ev Gdk_screen_get_default _
  | Ev (Gdk_screen_get_width _) _
  | Ev (Gdk_screen_get_height _) _ => true
  | _ => false
  end.

Definition is_material_new (e : event) : bool :=
  match e with
  | Ev Cogl_material_new _ => true
  | _ => false
  end.

Definition is_verbose (e : event) : bool :=
  match e with
  | Ev (Meta_verbose _) _ => true
  | _ => false
  end.

(** The texture constructors, old and new. *)
Inductive constructor_kind : Type := Legacy | Texture2D.

Definition constructor_of (c : call) : option constructor_kind :=
  match c with
  | Cogl_texture_new_from_data _ _ _ _ _ _ _
  | Cogl_texture_new_from_file _ _ _
  | Cogl_texture_new_with_size _ _ _ _ => Some Legacy
  | Cogl_texture_2d_new_from_data _ _ _ _ _ _ _
  | Cogl_texture_2d_new_from_file _ _ _
  | Cogl_texture_2d_new_with_size _ _ _ _ => Some Texture2D
  | _ => None
  end.

(** The argument that tells the constructor how the source pixels are laid
    out; only the from-data constructors have one. *)
Definition pixel_format_of (c : call) : option CoglPixelFormat :=
  match c with
  | Cogl_texture_new_from_data _ _ _ format _ _ _ => Some format
  | Cogl_texture_2d_new_from_data _ _ _ format _ _ _ => Some format
  | _ => None
  end.

(** The size a constructor is asked for. *)
Definition size_of (c : call) : option (gint * gint) :=
  match c with
  | Cogl_texture_new_from_data w h _ _ _ _ _ => Some (w, h)
  | Cogl_texture_2d_new_from_data _ w h _ _ _ _ => Some (w, h)
  | Cogl_texture_new_with_size w h _ _ => Some (w, h)
  | Cogl_texture_2d_new_with_size _ w h _ => Some (w, h)
  | _ => None
  end.

(** The handle a constructor gave back. *)
Definition handle_of (e : event) : option CoglHandle :=
  match e with
  | Ev (Cogl_texture_new_from_data _ _ _ _ _ _ _) h => Some h
  | Ev (Cogl_texture_2d_new_from_data _ _ _ _ _ _ _) r => Some (fst r)
  | Ev (Cogl_texture_new_from_file _ _ _) r => Some (fst r)
  | Ev (Cogl_texture_2d_new_from_file _ _ _) r => Some (fst r)
  | Ev (Cogl_texture_new_with_size _ _ _ _) h => Some h
  | Ev (Cogl_texture_2d_new_with_size _ _ _ _) h => Some h
  | _ => None
  end.

(** The error a constructor stored, for those that can store one. *)
Definition error_of (e : event) : option CoglError :=
  match e with
  | Ev (Cogl_texture_2d_new_from_data _ _ _ _ _ _ _) r => snd r
  | Ev (Cogl_texture_new_from_file _ _ _) r => snd r
  | Ev (Cogl_texture_2d_new_from_file _ _ _) r => snd r
  | _ => None
  end.

Definition event_call (e : event) : call :=
  match e with Ev c _ => c end.

Definition is_constructor (e : event) : bool :=
  match constructor_of (event_call e) with
  | Some _ => true
  | None => false
  end.

(** ** The process: the file's statics and the world outside *)

(** The statics of [cogl-utils.c], the function-local one included. *)
Record globals : Type := mkGlobals
  { texture_material_template : CoglHandle;
    cogl_context : CoglContext;
    supports_npot : gboolean;
    screen_width : gint;
    screen_height : gint }.

(** Their values when the process starts, as the initialisers give them. *)
Definition initial_globals : globals :=
  {| texture_material_template := COGL_INVALID_HANDLE;
     cogl_context := NULL;
     supports_npot := false;
     screen_width := 0;
     screen_height := 0 |}.

Definition set_texture_material_template (h : CoglHandle) (g : globals) :=
  {| texture_material_template := h;
     cogl_context := cogl_context g;
     supports_npot := supports_npot g;
     screen_width := screen_width g;
     screen_height := screen_height g |}.

Definition set_cogl_context (c : CoglContext) (g : globals) :=
  {| texture_material_template := texture_material_template g;
     cogl_context := c;
     supports_npot := supports_npot g;
     screen_width := screen_width g;
     screen_height := screen_height g |}.

Definition set_supports_npot (b : gboolean) (g : globals) :=
  {| texture_material_template := texture_material_template g;
     cogl_context := cogl_context g;
     supports_npot := b;
     screen_width := screen_width g;
     screen_height := screen_height g |}.

Definition set_screen_width (z : gint) (g : globals) :=
  {| texture_material_template := texture_material_template g;
     cogl_context := cogl_context g;
     supports_npot := supports_npot g;
     screen_width := z;
     screen_height := screen_height g |}.

Definition set_screen_height (z : gint) (g : globals) :=
  {| texture_material_template := texture_material_template g;
     cogl_context := cogl_context g;
     supports_npot := supports_npot g;
     screen_width := screen_width g;
     screen_height := z |}.

Record process `{World} : Type := mkProcess
  { statics : globals;
    world : W }.

(** A computation reads and writes the process and reports its calls. *)
Definition M `{World} (A : Type) : Type := process -> A * process * trace.

Definition value `{World} {A} (r : A * process * trace) : A := fst (fst r).
Definition after `{World} {A} (r : A * process * trace) : process := snd (fst r).
Definition calls `{World} {A} (r : A * process * trace) : trace := snd r.

#[export] Instance Monad_M `{World} : Monad M :=
  { ret := fun _ a p => (a, p, []);
    bind := fun _ _ m f p =>
      let r1 := m p in
      let r2 := f (value r1) (after r1) in
      (value r2, after r2, calls r1 ++ calls r2) }.

(** Reading and writing a static. *)
Definition load `{World} {A} (field : globals -> A) : M A :=
  fun p => (field (statics p), p, []).

Definition store `{World} (update : globals -> globals) : M unit :=
  fun p => (tt, {| statics := update (statics p); world := world p |}, []).

(** Calling out: the world answers and moves on, the call is reported. *)
Definition invoke `{World} (c : call) : M (answer c) :=
  fun p =>
    let r := respond c (world p) in
    (fst r, {| statics := statics p; world := snd r |}, [Ev c (fst r)]).

Definition newline : string := String (ascii_of_nat 10) EmptyString.

Section Model.

Context `{World} `{CoglColorAPI}.
Variable cfg : build.

(** The extra argument of the 2D constructors before Cogl 1.18. *)
Definition before_1_18 (f : CoglPixelFormat) : option CoglPixelFormat :=
  if cogl_before_1_18 cfg then Some f else None.

(** [meta_create_color_texture_4ub], lines 48-71. *)
Definition meta_create_color_texture_4ub
    (red green blue alpha : guint8) (flags : CoglTextureFlags) : M CoglHandle :=
  let color := cogl_color_set_from_4ub red green blue alpha in
  let color := cogl_color_premultiply color in
  let pixel :=
    [ cogl_color_get_red_byte color;
      cogl_color_get_green_byte color;
      cogl_color_get_blue_byte color;
      cogl_color_get_alpha_byte color ] in
  invoke (Cogl_texture_new_from_data 1 1 flags
            COGL_PIXEL_FORMAT_RGBA_8888_PRE COGL_PIXEL_FORMAT_ANY 4 pixel).

(** [meta_create_texture_material], lines 88-116. *)
Definition meta_create_texture_material (src_texture : CoglHandle)
    : M CoglHandle :=
  template <- load texture_material_template ;;
  (if is_null template
   then
     dummy_texture <- meta_create_color_texture_4ub xff xff xff xff
                        COGL_TEXTURE_NONE ;;
     fresh <- invoke Cogl_material_new ;;
     store (set_texture_material_template fresh) ;;
     template <- load texture_material_template ;;
     invoke (Cogl_material_set_layer template 0 dummy_texture) ;;
     invoke (Cogl_handle_unref dummy_texture)
   else ret tt) ;;
  template <- load texture_material_template ;;
  material <- invoke (Cogl_material_copy template) ;;
  (if negb (is_null src_texture)
   then invoke (Cogl_material_set_layer material 0 src_texture)
   else ret tt) ;;
  ret material.

(** [hardware_supports_npot_sizes], lines 127-138. *)
Definition hardware_supports_npot_sizes : M gboolean :=
  ctx <- load cogl_context ;;
  if negb (is_null ctx)
  then load supports_npot
  else
    backend <- invoke Clutter_get_default_backend ;;
    ctx <- invoke (Clutter_backend_get_cogl_context backend) ;;
    store (set_cogl_context ctx) ;;
    ctx <- load cogl_context ;;
    npot <- invoke (Cogl_has_feature ctx COGL_FEATURE_ID_TEXTURE_NPOT) ;;
    store (set_supports_npot npot) ;;
    load supports_npot.

(** [clamp_sizes], lines 140-154.  The two [gint *] arguments are read and
    written once each, so the function takes their values and returns the
    new ones. *)
Definition clamp_sizes (width height : gint) : M (gint * gint) :=
  cached <- load screen_width ;;
  (if cached =? 0
   then
     screen <- invoke Gdk_screen_get_default ;;
     w <- invoke (Gdk_screen_get_width screen) ;;
     store (set_screen_width w) ;;
     h <- invoke (Gdk_screen_get_height screen) ;;
     store (set_screen_height h)
   else ret tt) ;;
  sw <- load screen_width ;;
  sh <- load screen_height ;;
  ret (MIN width (gint_mul sw 2), MIN height (gint_mul sh 2)).

(** The logging of a stored error, as lines 189-193 and 242-246 do it. *)
Definition report_error (prefix : string) (error : option CoglError) : M unit :=
  match error with
  | Some e =>
      invoke (Meta_verbose (prefix ++ error_message e ++ newline)) ;;
      invoke (Cogl_error_free e)
  | None => ret tt
  end.

(** [meta_cogl_texture_new_from_data_wrapper], lines 164-207. *)
Definition meta_cogl_texture_new_from_data_wrapper
    (width height : gint) (flags : CoglTextureFlags)
    (format internal_format : CoglPixelFormat)
    (rowstride : gint) (data : list byte) : M CoglTexture :=
  size <- clamp_sizes width height ;;
  let width := fst size in
  let height := snd size in
  npot <- hardware_supports_npot_sizes ;;
  if npot
  then
    ctx <- load cogl_context ;;
    r <- invoke (Cogl_texture_2d_new_from_data ctx width height format
                   (before_1_18 COGL_PIXEL_FORMAT_ANY) rowstride data) ;;
    report_error "cogl_texture_2d_new_from_data failed: " (snd r) ;;
    ret (COGL_TEXTURE (fst r))
  else
    invoke (Cogl_texture_new_from_data width height flags format
              internal_format rowstride data).

(** [meta_cogl_texture_new_from_file_wrapper], lines 217-249. *)
Definition meta_cogl_texture_new_from_file_wrapper
    (filename : string) (flags : CoglTextureFlags)
    (internal_format : CoglPixelFormat) : M CoglTexture :=
  npot <- hardware_supports_npot_sizes ;;
  r <- (if npot
        then
          ctx <- load cogl_context ;;
          r <- invoke (Cogl_texture_2d_new_from_file ctx filename
                         (before_1_18 COGL_PIXEL_FORMAT_ANY)) ;;
          ret (COGL_TEXTURE (fst r), snd r)
        else
          invoke (Cogl_texture_new_from_file filename flags internal_format)) ;;
  report_error "cogl_texture_(2d)_new_from_file failed: " (snd r) ;;
  ret (fst r).

(** [meta_cogl_texture_new_with_size_wrapper], lines 259-287. *)
Definition meta_cogl_texture_new_with_size_wrapper
    (width height : gint) (flags : CoglTextureFlags)
    (internal_format : CoglPixelFormat) : M CoglTexture :=
  size <- clamp_sizes width height ;;
  let width := fst size in
  let height := snd size in
  npot <- hardware_supports_npot_sizes ;;
  if npot
  then
    ctx <- load cogl_context ;;
    texture <- invoke (Cogl_texture_2d_new_with_size ctx width height
                         (before_1_18 (CLUTTER_CAIRO_FORMAT_ARGB32 cfg))) ;;
    ret (COGL_TEXTURE texture)
  else
    invoke (Cogl_texture_new_with_size width height flags internal_format).

End Model.

Arguments hardware_supports_npot_sizes : simpl never.
Arguments clamp_sizes : simpl never.
Arguments report_error : simpl never.

(** ** Runs of the module *)

(** The three texture-creation entry points with their arguments. *)
Inductive entry : Type :=
| From_data (width height : gint) (flags : CoglTextureFlags)
    (format internal_format : CoglPixelFormat) (rowstride : gint)
    (data : list byte)
| From_file (filename : string) (flags : CoglTextureFlags)
    (internal_format : CoglPixelFormat)
| With_size (width height : gint) (flags : CoglTextureFlags)
    (internal_format : CoglPixelFormat).

(** Everything a caller, or the file itself, can run. *)
Inductive op : Type :=
| Create_color_texture_4ub (red green blue alpha : guint8)
    (flags : CoglTextureFlags)
| Create_texture_material (src_texture : CoglHandle)
| Hardware_supports_npot_sizes
| Clamp_sizes (width height : gint)
| Texture_new (e : entry).

Inductive outcome : Type :=
| Handle (h : CoglHandle)
| Flag (b : gboolean)
| Size (width height : gint).

Definition run_entry `{World} `{CoglColorAPI} (cfg : build) (e : entry)
    : M CoglTexture :=
  match e with
  | From_data w h flags format internal_format rowstride data =>
      meta_cogl_texture_new_from_data_wrapper cfg w h flags format
        internal_format rowstride data
  | From_file filename flags internal_format =>
      meta_cogl_texture_new_from_file_wrapper cfg filename flags
        internal_format
  | With_size w h flags internal_format =>
      meta_cogl_texture_new_with_size_wrapper cfg w h flags internal_format
  end.

Definition run_op `{World} `{CoglColorAPI} (cfg : build) (o : op)
    : M outcome :=
  match o with
  | Create_color_texture_4ub r g b a flags =>
      h <- meta_create_color_texture_4ub r g b a flags ;; ret (Handle h)
  | Create_texture_material src =>
      h <- meta_create_texture_material src ;; ret (Handle h)
  | Hardware_supports_npot_sizes =>
      b <- hardware_supports_npot_sizes ;; ret (Flag b)
  | Clamp_sizes w h =>
      s <- clamp_sizes w h ;; ret (Size (fst s) (snd s))
  | Texture_new e =>
      h <- run_entry cfg e ;; ret (Handle h)
  end.

Fixpoint run_ops `{World} `{CoglColorAPI} (cfg : build) (l : list op)
    : M (list outcome) :=
  match l with
  | [] => ret []
  | o :: l' =>
      x <- run_op cfg o ;;
      xs <- run_ops cfg l' ;;
      ret (x :: xs)
  end.

(** The materials a run handed out, oldest first. *)
Fixpoint materials_of (l : list op) (outs : list outcome) : list CoglHandle :=
  match l, outs with
  | Create_texture_material _ :: l', Handle h :: outs' =>
      h :: materials_of l' outs'
  | _ :: l', _ :: outs' => materials_of l' outs'
  | _, _ => []
  end.

(** The process as [main] finds it. *)
Definition process_start `{World} (w : W) : process :=
  {| statics := initial_globals; world := w |}.

(** What [hardware_supports_npot_sizes] answers inside an entry point: it is
    asked after the clamp in the data and size variants, first thing in the
    file variant. *)
Definition capability_seen `{World} (e : entry) (p : process) : gboolean :=
  match e with
  | From_data w h _ _ _ _ _ | With_size w h _ _ =>
      value (hardware_supports_npot_sizes (after (clamp_sizes w h p)))
  | From_file _ _ _ => value (hardware_supports_npot_sizes p)
  end.

(** The constructor calls among the calls of a run. *)
Definition constructor_events (t : trace) : trace :=
  filter is_constructor t.

(** What an error costs in calls: one log line and the release. *)
Definition error_report (prefix : string) (error : option CoglError) : trace :=
  match error with
  | Some e =>
      [ Ev (Meta_verbose (prefix ++ error_message e ++ newline)) tt;
        Ev (Cogl_error_free e) tt ]
  | None => []
  end.

(** The dispatch rule read literally, for one call: exactly one constructor
    is called and its handle returned; on hardware with non-power-of-two
    support it is a 2D constructor that is given a pixel format, otherwise a
    legacy one that is given a pixel format. *)
Definition dispatch_with_pixel_format `{World} `{CoglColorAPI}
    (cfg : build) (e : entry) (p : process) : Prop :=
  exists ev,
    constructor_events (calls (run_entry cfg e p)) = [ev] /\
    handle_of ev = Some (value (run_entry cfg e p)) /\
    constructor_of (event_call ev)
      = Some (if capability_seen e p then Texture2D else Legacy) /\
    pixel_format_of (event_call ev) <> None.

(** The error rule read literally, for one call: an error object is logged
    only after a 2D constructor. *)
Definition errors_only_from_2d `{World} `{CoglColorAPI}
    (cfg : build) (e : entry) (p : process) : Prop :=
  existsb is_verbose (calls (run_entry cfg e p)) = true ->
  exists ev,
    In ev (calls (run_entry cfg e p)) /\
    constructor_of (event_call ev) = Some Texture2D.

(** The zero-screen rule read literally, for two calls in a row: when the
    first finds a screen of width 0, the second gives (0, 0). *)
Definition zero_screen_sticks `{World}
    (w1 h1 w2 h2 : gint) (p : process) : Prop :=
  let r1 := clamp_sizes w1 h1 p in
  screen_width (statics (after r1)) = 0 ->
  value (clamp_sizes w2 h2 (after r1)) = (0, 0).

(** * Vocabulary of the properties *)

(** ** Invariants and permitted calls

    [preserves I ok m]: started in a process that satisfies [I], the
    computation [m] ends in one that does, and makes only calls that [ok]
    accepts. *)

Definition preserves `{World} {A} (I : process -> Prop) (ok : event -> bool)
    (m : M A) : Prop :=
  forall p, I p -> I (after (m p)) /\ forallb ok (calls (m p)) = true.

(** An invariant of the statics alone survives every call. *)
Definition on_statics `{World} (J : globals -> Prop) : process -> Prop :=
  fun p => J (statics p).

(** The capability cache holds context [c] (not [NULL]) and answer [b]. *)
Definition capability_is (c : CoglContext) (b : gboolean) (g : globals)
    : Prop :=
  cogl_context g = c /\ supports_npot g = b /\ c <> NULL.

Definition no_backend_query (e : event) : bool := negb (is_backend_query e).

(** The screen-size cache holds width [w] (not 0) and height [h]. *)
Definition screen_is (w h : gint) (g : globals) : Prop :=
  screen_width g = w /\ screen_height g = h /\ w <> 0.

Definition no_screen_query (e : event) : bool := negb (is_screen_query e).

(** The state a run is in after its first [n] operations. *)
Definition state_at `{World} `{CoglColorAPI} (cfg : build) (l : list op)
    (n : nat) (p : process) : process :=
  after (run_ops cfg (firstn n l) p).

(** No condition on the process at all. *)
Definition anything : globals -> Prop := fun _ => True.

(** The calls that deal with an error: the log line and the release. *)
Definition is_error_handling (e : event) : bool :=
  match e with
  | Ev (Meta_verbose _) _ | Ev (Cogl_error_free _) _ => true
  | _ => false
  end.

Definition no_error_handling (e : event) : bool := negb (is_error_handling e).

Definition no_constructor (e : event) : bool := negb (is_constructor e).

(** The constructors that take a [CoglError **]. *)
Definition takes_error (c : call) : bool :=
  match c with
  | Cogl_texture_2d_new_from_data _ _ _ _ _ _ _
  | Cogl_texture_new_from_file _ _ _
  | Cogl_texture_2d_new_from_file _ _ _ => true
  | _ => false
  end.

(** The bytes of the one pixel of a colour texture: the channels of the
    premultiplied colour, red first. *)
Definition premultiplied_pixel `{CoglColorAPI} (red green blue alpha : guint8)
    : list byte :=
  let color :=
    cogl_color_premultiply (cogl_color_set_from_4ub red green blue alpha) in
  [ cogl_color_get_red_byte color;
    cogl_color_get_green_byte color;
    cogl_color_get_blue_byte color;
    cogl_color_get_alpha_byte color ].

(** The process with other statics and the same world. *)
Definition with_statics `{World} (g : globals) (p : process) : process :=
  {| statics := g; world := world p |}.

(** *** What the module relies on in Cogl's object store *)

(** The call that drops a reference to [h]. *)
Definition releases (c : call) (h : CoglHandle) : bool :=
  match c with
  | Cogl_handle_unref x => (x =? h)%N
  | _ => false
  end.

(** The calls that can change layer [i] of material [m]. *)
Definition writes_layer (c : call) (m : CoglHandle) (i : Z) : bool :=
  match c with
  | Cogl_material_set_layer m' i' _ => ((m' =? m)%N && (i' =? i))%bool
  | Cogl_handle_unref x => (x =? m)%N
  | _ => false
  end.

(** Cogl's side of the bargain: new and copied materials are valid handles
    that were not allocated before; a copy has the layers of its source; a
    texture constructor gives an allocated handle or the invalid one;
    setting a layer sets it; an allocated handle stays allocated unless a
    reference to it is dropped; and a layer changes only when it is set or
    a reference to its material is dropped. *)
Class CoglContract `{World} : Prop :=
  { new_is_fresh : forall w,
      fst (respond Cogl_material_new w) <> COGL_INVALID_HANDLE /\
      ~ live w (fst (respond Cogl_material_new w)) /\
      live (snd (respond Cogl_material_new w))
           (fst (respond Cogl_material_new w));
    copy_is_fresh : forall w m,
      live w m ->
      fst (respond (Cogl_material_copy m) w) <> COGL_INVALID_HANDLE /\
      ~ live w (fst (respond (Cogl_material_copy m) w)) /\
      live (snd (respond (Cogl_material_copy m) w))
           (fst (respond (Cogl_material_copy m) w)) /\
      forall i, layer (snd (respond (Cogl_material_copy m) w))
                      (fst (respond (Cogl_material_copy m) w)) i
                = layer w m i;
    texture_is_live : forall w width height flags format internal_format
                             rowstride data,
      let c := Cogl_texture_new_from_data width height flags format
                 internal_format rowstride data in
      fst (respond c w) = COGL_INVALID_HANDLE \/
      live (snd (respond c w)) (fst (respond c w));
    set_layer_sets : forall w m i t,
      live w m ->
      layer (snd (respond (Cogl_material_set_layer m i t) w)) m i = Some t;
    live_kept : forall c w h,
      live w h -> releases c h = false -> live (snd (respond c w)) h;
    layer_kept : forall c w m i,
      live w m -> writes_layer c m i = false ->
      layer (snd (respond c w)) m i = layer w m i }.

(** The calls that allocate no material, set no layer and drop no
    reference. *)
Definition benign (e : event) : bool :=
  match e with
  | Ev Cogl_material_new _
  | Ev (Cogl_material_set_layer _ _ _) _
  | Ev (Cogl_material_copy _) _
  | Ev (Cogl_handle_unref _) _ => false
  | _ => true
  end.

(** The template static is [t], and the handles [hs] are allocated and have
    at layer 0 what they have in the world [w0]. *)
Definition settled `{World} (t : CoglHandle) (hs : list CoglHandle) (w0 : W)
    (p : process) : Prop :=
  texture_material_template (statics p) = t /\
  forall h, In h hs ->
    live (world p) h /\ layer (world p) h 0 = layer w0 h 0.

(** The constructor call for the dummy texture of the template. *)
Definition white_texture_call `{CoglColorAPI} : call :=
  Cogl_texture_new_from_data 1 1 COGL_TEXTURE_NONE
    COGL_PIXEL_FORMAT_RGBA_8888_PRE COGL_PIXEL_FORMAT_ANY 4
    (premultiplied_pixel xff xff xff xff).

(** What holds of the template between operations, given the calls made so
    far and the materials handed out so far: no material was handed out
    before the template existed; while there is no template, none was ever
    made; once there is one, exactly one was ever made, it is allocated, it
    is none of the materials handed out, which are allocated too, and its
    layer 0 is a texture that the white 1x1 constructor call returned. *)
Definition template_invariant `{World} `{CoglColorAPI}
    (p : process) (history : trace) (mats : list CoglHandle) : Prop :=
  let t := texture_material_template (statics p) in
  (forall m, In m mats ->
     live (world p) m /\ m <> t /\ t <> COGL_INVALID_HANDLE) /\
  (t = COGL_INVALID_HANDLE -> filter is_material_new history = []) /\
  (t <> COGL_INVALID_HANDLE ->
     List.length (filter is_material_new history) = 1%nat /\
     live (world p) t /\
     exists d, layer (world p) t 0 = Some d /\
               In (Ev white_texture_call d) history).

(** The two halves of [meta_create_texture_material], each on its own:
    lines 100-107, which build the template, and lines 110-115, which copy
    it. *)
Definition build_template `{World} `{CoglColorAPI} : M unit :=
  dummy_texture <- meta_create_color_texture_4ub xff xff xff xff
                     COGL_TEXTURE_NONE ;;
  fresh <- invoke Cogl_material_new ;;
  store (set_texture_material_template fresh) ;;
  template <- load texture_material_template ;;
  invoke (Cogl_material_set_layer template 0 dummy_texture) ;;
  invoke (Cogl_handle_unref dummy_texture).

Definition copy_template `{World} (src_texture : CoglHandle) : M CoglHandle :=
  template <- load texture_material_template ;;
  material <- invoke (Cogl_material_copy template) ;;
  (if negb (is_null src_texture)
   then invoke (Cogl_material_set_layer material 0 src_texture)
   else ret tt) ;;
  ret material.

(** The text each entry point puts before the error's message. *)
Definition log_prefix (e : entry) : string :=
  match e with
  | From_data _ _ _ _ _ _ _ => "cogl_texture_2d_new_from_data failed: "
  | From_file _ _ _ => "cogl_texture_(2d)_new_from_file failed: "
  | With_size _ _ _ _ => ""
  end.

(** *** Vocabulary of the run-level properties *)

Definition is_unref (e : event) : bool :=
  match e with
  | Ev (Cogl_handle_unref _) _ => true
  | _ => false
  end.

(** The errors the constructors stored, in order, and the errors that
    were freed, in order. *)
Definition errors_stored (t : trace) : list CoglError :=
  flat_map (fun e => match error_of e with
                     | Some x => [x]
                     | None => []
                     end) t.

Definition errors_freed (t : trace) : list CoglError :=
  flat_map (fun e => match e with
                     | Ev (Cogl_error_free x) _ => [x]
                     | _ => []
                     end) t.

(** What an entry point does before it picks a constructor: the clamp,
    where there is one, and the capability query; the calls these make and
    the process they leave. *)
Definition entry_probe `{World} (e : entry) (p : process) : process :=
  match e with
  | From_data w h _ _ _ _ _ | With_size w h _ _ =>
      after (hardware_supports_npot_sizes (after (clamp_sizes w h p)))
  | From_file _ _ _ => after (hardware_supports_npot_sizes p)
  end.

Definition entry_queries `{World} (e : entry) (p : process) : trace :=
  match e with
  | From_data w h _ _ _ _ _ | With_size w h _ _ =>
      calls (clamp_sizes w h p)
        ++ calls (hardware_supports_npot_sizes (after (clamp_sizes w h p)))
  | From_file _ _ _ => calls (hardware_supports_npot_sizes p)
  end.

(** The constructor call an entry point makes in process [p]. *)
Definition chosen_constructor `{World} (cfg : build) (e : entry) (p : process)
    : call :=
  let ctx := cogl_context (statics (entry_probe e p)) in
  match e with
  | From_data w h flags format internal_format rowstride data =>
      let size := value (clamp_sizes w h p) in
      if capability_seen e p
      then Cogl_texture_2d_new_from_data ctx (fst size) (snd size) format
             (before_1_18 cfg COGL_PIXEL_FORMAT_ANY) rowstride data
      else Cogl_texture_new_from_data (fst size) (snd size) flags format
             internal_format rowstride data
  | From_file filename flags internal_format =>
      if capability_seen e p
      then Cogl_texture_2d_new_from_file ctx filename
             (before_1_18 cfg COGL_PIXEL_FORMAT_ANY)
      else Cogl_texture_new_from_file filename flags internal_format
  | With_size w h flags internal_format =>
      let size := value (clamp_sizes w h p) in
      if capability_seen e p
      then Cogl_texture_2d_new_with_size ctx (fst size) (snd size)
             (before_1_18 cfg (CLUTTER_CAIRO_FORMAT_ARGB32 cfg))
      else Cogl_texture_new_with_size (fst size) (snd size) flags
             internal_format
  end.

(** The calls that ask the backend for its context, and the calls that ask
    for the default screen: one of each per filling of a cache. *)
Definition is_context_query (e : event) : bool :=
  match e with
  | Ev (Clutter_backend_get_cogl_context _) _ => true
  | _ => false
  end.

Definition is_width_query (e : event) : bool :=
  match e with
  | Ev (Gdk_screen_get_width _) _ => true
  | _ => false
  end.

(** Every context the backend handed out in these calls is a context, and
    every width the screen reported is a width. *)
Definition context_ok (e : event) : bool :=
  match e with
  | Ev (Clutter_backend_get_cogl_context _) c => negb (is_null c)
  | _ => true
  end.

Definition width_ok (e : event) : bool :=
  match e with
  | Ev (Gdk_screen_get_width _) w => negb (w =? 0)
  | _ => true
  end.

Definition contexts_valid (t : trace) : Prop := forallb context_ok t = true.

Definition widths_nonzero (t : trace) : Prop := forallb width_ok t = true.

Definition no_cache_query (e : event) : bool :=
  negb (is_context_query e || is_width_query e).

(** A constructor call that asks for a size asks for at most [w] by [h]. *)
Definition size_within (w h : Z) (e : event) : bool :=
  match size_of (event_call e) with
  | Some (w', h') => ((w' <=? w) && (h' <=? h))%bool
  | None => true
  end.

(** A call is no 2D constructor call. *)
Definition not_2d (e : event) : bool :=
  match constructor_of (event_call e) with
  | Some Texture2D => false
  | _ => true
  end.

(** A call is no legacy constructor call, and if it is a 2D constructor
    call, it is given the context [c]. *)
Definition only_2d_on (c : CoglContext) (e : event) : bool :=
  match event_call e with
  | Cogl_texture_2d_new_from_data ctx _ _ _ _ _ _
  | Cogl_texture_2d_new_from_file ctx _ _
  | Cogl_texture_2d_new_with_size ctx _ _ _ => (ctx =? c)%N
  | Cogl_texture_new_from_data _ _ _ _ _ _ _
  | Cogl_texture_new_from_file _ _ _
  | Cogl_texture_new_with_size _ _ _ _ => false
  | _ => true
  end.

(** Once the template is [t]: no material is made from scratch, no
    reference is dropped, and copies are copies of [t]. *)
Definition template_in_use (t : CoglHandle) (e : event) : bool :=
  match e with
  | Ev Cogl_material_new _ => false
  | Ev (Cogl_handle_unref _) _ => false
  | Ev (Cogl_material_copy s) _ => (s =? t)%N
  | _ => true
  end.

(** The template static is [t], which is a valid handle. *)
Definition template_is (t : CoglHandle) (g : globals) : Prop :=
  texture_material_template g = t /\ t <> COGL_INVALID_HANDLE.

(** The argument that the 2D constructors take before Cogl 1.18 is there
    exactly in such a build, with the value the source gives it. *)
Definition extra_argument_of (c : call)
    : option (option CoglPixelFormat * bool) :=
  match c with
  | Cogl_texture_2d_new_from_data _ _ _ _ x _ _ => Some (x, false)
  | Cogl_texture_2d_new_from_file _ _ x => Some (x, false)
  | Cogl_texture_2d_new_with_size _ _ _ x => Some (x, true)
  | _ => None
  end.

Definition extra_argument_as_built (cfg : build) (e : event) : Prop :=
  match extra_argument_of (event_call e) with
  | Some (x, sized) =>
      x = (if cogl_before_1_18 cfg
           then Some (if sized then CLUTTER_CAIRO_FORMAT_ARGB32 cfg
                      else COGL_PIXEL_FORMAT_ANY)
           else None)
  | None => True
  end.

(** The calls the operations other than the three entry points can make:
    the queries, the 1x1 legacy from-data call of the colour helper, and
    the material calls. *)
Definition helper_event (e : event) : bool :=
  match e with
  | Ev Clutter_get_default_backend _
  | Ev (Clutter_backend_get_cogl_context _) _
  | Ev (Cogl_has_feature _ _) _
  | Ev Gdk_screen_get_default _
  | Ev (Gdk_screen_get_width _) _
  | Ev (Gdk_screen_get_height _) _
  | Ev Cogl_material_new _
  | Ev (Cogl_material_set_layer _ _ _) _
  | Ev (Cogl_material_copy _) _
  | Ev (Cogl_handle_unref _) _ => true
  | Ev (Cogl_texture_new_from_data w h _ _ _ _ _) _ =>
      ((w =? 1) && (h =? 1))%bool
  | _ => false
  end.

(** The calls that store no error and handle none. *)
Definition no_error_traffic (e : event) : bool :=
  match error_of e with
  | Some _ => false
  | None => no_error_handling e
  end.

(** The template static is [t], which is allocated, and the handles [hs]
    are allocated and have at every layer what they have in the world
    [w0]. *)
Definition left_alone `{World} (t : CoglHandle) (hs : list CoglHandle)
    (w0 : W) (p : process) : Prop :=
  texture_material_template (statics p) = t /\
  live (world p) t /\
  forall h, In h hs ->
    live (world p) h /\ forall i, layer (world p) h i = layer w0 h i.

(** The operations that are texture-creation entry points, and the
    operations that are not the material helper. *)
Definition is_texture_op (o : op) : bool :=
  match o with
  | Texture_new _ => true
  | _ => false
  end.

Definition is_material_op (o : op) : bool :=
  match o with
  | Create_texture_material _ => true
  | _ => false
  end.

(** ** A scripted world

    A stand-in for the libraries, for running the module on concrete inputs:
    the backend, the context and the capability are fixed; every
    [gdk_screen_get_default] hands out the next screen of a script (a screen
    of size 0x0 is the display not being there yet); handles are numbered
    from 1 and never reused; materials keep their layers in a table; and a
    set [dbl_failure] makes every texture constructor fail with that error,
    which the constructors without a [CoglError **] cannot pass on. *)

Record double : Type := mkDouble
  { dbl_backend : ClutterBackend;
    dbl_context : CoglContext;
    dbl_npot : bool;
    dbl_screens : list (gint * gint);
    dbl_screen_queries : nat;
    dbl_failure : option CoglError;
    dbl_allocated : N;
    dbl_layers : CoglHandle -> Z -> option CoglHandle }.

Definition dbl_next_screen (d : double) : double :=
  {| dbl_backend := dbl_backend d;
     dbl_context := dbl_context d;
     dbl_npot := dbl_npot d;
     dbl_screens := dbl_screens d;
     dbl_screen_queries := S (dbl_screen_queries d);
     dbl_failure := dbl_failure d;
     dbl_allocated := dbl_allocated d;
     dbl_layers := dbl_layers d |}.

Definition dbl_store (n : N) (layers : CoglHandle -> Z -> option CoglHandle)
    (d : double) : double :=
  {| dbl_backend := dbl_backend d;
     dbl_context := dbl_context d;
     dbl_npot := dbl_npot d;
     dbl_screens := dbl_screens d;
     dbl_screen_queries := dbl_screen_queries d;
     dbl_failure := dbl_failure d;
     dbl_allocated := n;
     dbl_layers := layers |}.

Definition dbl_screen_size (d : double) (screen : GdkScreen) : gint * gint :=
  nth (pred (N.to_nat screen)) (dbl_screens d) (0, 0).

Definition dbl_alloc (d : double) : CoglHandle * double :=
  (N.succ (dbl_allocated d),
   dbl_store (N.succ (dbl_allocated d)) (dbl_layers d) d).

Definition dbl_texture (d : double) : CoglHandle * double :=
  match dbl_failure d with
  | Some _ => (COGL_INVALID_HANDLE, d)
  | None => dbl_alloc d
  end.

Definition dbl_texture_or_error (d : double)
    : (CoglHandle * option CoglError) * double :=
  match dbl_failure d with
  | Some e => ((COGL_INVALID_HANDLE, Some e), d)
  | None => ((fst (dbl_alloc d), None), snd (dbl_alloc d))
  end.

Definition dbl_set_layer (m : CoglHandle) (i : Z) (t : CoglHandle)
    (d : double) : double :=
  dbl_store (dbl_allocated d)
    (fun m' i' =>
       if ((m' =? m)%N && (i' =? i))%bool then Some t else dbl_layers d m' i')
    d.

Definition dbl_copy (m : CoglHandle) (d : double) : CoglHandle * double :=
  let fresh := N.succ (dbl_allocated d) in
  (fresh,
   dbl_store fresh
     (fun m' i' => if (m' =? fresh)%N then dbl_layers d m i'
                   else dbl_layers d m' i')
     d).

Definition dbl_respond (c : call) (d : double) : answer c * double :=
  match c as c0 return answer c0 * double with
  | Clutter_get_default_backend => (dbl_backend d, d)
  | Clutter_backend_get_cogl_context _ => (dbl_context d, d)
  | Cogl_has_feature _ COGL_FEATURE_ID_TEXTURE_NPOT => (dbl_npot d, d)
  | Cogl_has_feature _ _ => (false, d)
  | Gdk_screen_get_default =>
      (N.of_nat (S (dbl_screen_queries d)), dbl_next_screen d)
  | Gdk_screen_get_width screen => (fst (dbl_screen_size d screen), d)
  | Gdk_screen_get_height screen => (snd (dbl_screen_size d screen), d)
  | Cogl_texture_new_from_data _ _ _ _ _ _ _ => dbl_texture d
  | Cogl_texture_2d_new_from_data _ _ _ _ _ _ _ => dbl_texture_or_error d
  | Cogl_texture_new_from_file _ _ _ => dbl_texture_or_error d
  | Cogl_texture_2d_new_from_file _ _ _ => dbl_texture_or_error d
  | Cogl_texture_new_with_size _ _ _ _ => dbl_texture d
  | Cogl_texture_2d_new_with_size _ _ _ _ => dbl_texture d
  | Cogl_material_new => dbl_alloc d
  | Cogl_material_set_layer m i t => (tt, dbl_set_layer m i t d)
  | Cogl_material_copy m => dbl_copy m d
  | Cogl_handle_unref _ => (tt, d)
  | Cogl_error_free _ => (tt, d)
  | Meta_verbose _ => (tt, d)
  end.

Definition dbl_live (d : double) (h : CoglHandle) : Prop :=
  (0 < h <= dbl_allocated d)%N.

#[export] Instance scripted : World :=
  { W := double;
    respond := dbl_respond;
    live := dbl_live;
    layer := dbl_layers }.

(** A desktop: one 1920x1080 screen from the start, with or without
    non-power-of-two textures, with or without failing constructors. *)
Definition desktop (npot : bool) (failure : option CoglError) : double :=
  {| dbl_backend := 100%N;
     dbl_context := 200%N;
     dbl_npot := npot;
     dbl_screens := [(1920, 1080)];
     dbl_screen_queries := 0;
     dbl_failure := failure;
     dbl_allocated := 0%N;
     dbl_layers := fun _ _ => None |}.

(** The same machine started before the display is there: the first screen
    query finds nothing, the second finds the 1920x1080 screen. *)
Definition early_start : double :=
  {| dbl_backend := 100%N;
     dbl_context := 200%N;
     dbl_npot := true;
     dbl_screens := [(0, 0); (1920, 1080)];
     dbl_screen_queries := 0;
     dbl_failure := None;
     dbl_allocated := 0%N;
     dbl_layers := fun _ _ => None |}.

Definition out_of_memory : CoglError :=
  {| error_domain := 1%N; error_code := 0; error_message := "out of memory" |}.

(** Cogl 1.x keeps a colour as four bytes and premultiplies each of red,
    green and blue as [(c * alpha + 128) / 255]. *)
Record color4ub : Type := mkColor
  { color_red : byte; color_green : byte; color_blue : byte;
    color_alpha : byte }.

Definition byte_of_N (n : N) : byte :=
  match Byte.of_N (n mod 256) with
  | Some b => b
  | None => x00
  end.

Definition premultiply_channel (c alpha : byte) : byte :=
  byte_of_N ((Byte.to_N c * Byte.to_N alpha + 128) / 255).

Definition premultiply4ub (c : color4ub) : color4ub :=
  {| color_red := premultiply_channel (color_red c) (color_alpha c);
     color_green := premultiply_channel (color_green c) (color_alpha c);
     color_blue := premultiply_channel (color_blue c) (color_alpha c);
     color_alpha := color_alpha c |}.

#[export] Instance cogl1_color : CoglColorAPI :=
  { CoglColor := color4ub;
    cogl_color_set_from_4ub := mkColor;
    cogl_color_premultiply := premultiply4ub;
    cogl_color_get_red_byte := color_red;
    cogl_color_get_green_byte := color_green;
    cogl_color_get_blue_byte := color_blue;
    cogl_color_get_alpha_byte := color_alpha }.

Definition cogl_1_16 : build :=
  {| cogl_before_1_18 := true;
     CLUTTER_CAIRO_FORMAT_ARGB32 := COGL_PIXEL_FORMAT_BGRA_8888_PRE |}.

Definition cogl_1_18 : build :=
  {| cogl_before_1_18 := false;
     CLUTTER_CAIRO_FORMAT_ARGB32 := COGL_PIXEL_FORMAT_BGRA_8888_PRE |}.

(** A process on the desktop whose two caches are filled: it has created
    one texture by size. *)
Definition warmed_up : process :=
  after (meta_cogl_texture_new_with_size_wrapper cogl_1_18 64 64
           COGL_TEXTURE_NONE COGL_PIXEL_FORMAT_ANY
           (process_start (desktop true None))).

(** A process on the desktop that has handed out one material, handle 3,
    a copy of the template, handle 2, whose dummy texture is handle 1. *)
Definition with_template : process :=
  after (meta_create_texture_material COGL_INVALID_HANDLE
           (process_start (desktop false None))).

(** * Properties *)

Section Properties.

Context `{World} `{CoglColorAPI}.
Variable cfg : build.

(** ** Arithmetic of the clamp *)

Lemma MIN_is_min (a b : Z) : MIN a b = Z.min a b.
Proof.
  unfold MIN. destruct (Z.ltb_spec a b); lia.
Qed.

Lemma gint_wrap_id (z : Z) : in_gint z -> gint_wrap z = z.
Proof.
  unfold in_gint, G_MININT, G_MAXINT, gint_wrap. intros Hz.
  rewrite Z.mod_small; lia.
Qed.

Lemma gint_double (z : Z) : in_gint (2 * z) -> gint_mul z 2 = 2 * z.
Proof.
  intros Hz. unfold gint_mul. rewrite Z.mul_comm. now apply gint_wrap_id.
Qed.

(** ** The two caches, filled *)

Lemma is_null_false (x : pointer) : x <> NULL -> is_null x = false.
Proof.
  intros Hx. unfold is_null. now apply N.eqb_neq.
Qed.

Lemma is_null_true (x : pointer) : is_null x = true -> x = NULL.
Proof.
  unfold is_null. now intros Hx%N.eqb_eq.
Qed.

Lemma npot_cached (p : process) :
  cogl_context (statics p) <> NULL ->
  hardware_supports_npot_sizes p = (supports_npot (statics p), p, []).
Proof.
  intros Hctx. unfold hardware_supports_npot_sizes. cbn.
  rewrite (is_null_false _ Hctx). reflexivity.
Qed.

Lemma clamp_cached (p : process) (width height : gint) :
  screen_width (statics p) <> 0 ->
  clamp_sizes width height p
  = ((MIN width (gint_mul (screen_width (statics p)) 2),
      MIN height (gint_mul (screen_height (statics p)) 2)), p, []).
Proof.
  intros Hw. unfold clamp_sizes. cbn.
  destruct (Z.eqb_spec (screen_width (statics p)) 0); [contradiction|].
  reflexivity.
Qed.

Lemma clamp_value (p : process) (width height : gint) :
  value (clamp_sizes width height p)
  = (MIN width
       (gint_mul (screen_width (statics (after (clamp_sizes width height p)))) 2),
     MIN height
       (gint_mul (screen_height (statics (after (clamp_sizes width height p)))) 2)).
Proof.
  unfold clamp_sizes. cbn.
  destruct (screen_width (statics p) =? 0); reflexivity.
Qed.

Lemma preserves_ret {A} I ok (a : A) : preserves I ok (ret a).
Proof. intros p Hp. cbn. auto. Qed.

Lemma preserves_bind {A B} I ok (m : M A) (f : A -> M B) :
  preserves I ok m -> (forall a, preserves I ok (f a)) ->
  preserves I ok (bind m f).
Proof.
  intros Hm Hf p Hp. cbn.
  destruct (Hm p Hp) as (I1 & T1).
  destruct (Hf (value (m p)) (after (m p)) I1) as (I2 & T2).
  split; [exact I2|]. rewrite forallb_app. unfold calls in *.
  now rewrite T1, T2.
Qed.

Lemma preserves_load {A} I ok (field : globals -> A) :
  preserves I ok (load field).
Proof. intros p Hp. cbn. auto. Qed.

Lemma preserves_store I ok (update : globals -> globals) :
  (forall p, I p ->
     I {| statics := update (statics p); world := world p |}) ->
  preserves I ok (store update).
Proof. intros Hu p Hp. cbn. auto. Qed.

Lemma preserves_invoke I ok (c : call) :
  (forall p, I p ->
     I {| statics := statics p; world := snd (respond c (world p)) |}) ->
  (forall r, ok (Ev c r) = true) ->
  preserves I ok (invoke c).
Proof.
  intros Hc Hok p Hp. cbn. rewrite Hok. auto.
Qed.

Lemma preserves_if {A} I ok (b : bool) (m1 m2 : M A) :
  preserves I ok m1 -> preserves I ok m2 ->
  preserves I ok (if b then m1 else m2).
Proof. now destruct b. Qed.

Lemma preserves_report I ok (prefix : string) (error : option CoglError) :
  (forall text, preserves I ok (invoke (Meta_verbose text))) ->
  (forall e, preserves I ok (invoke (Cogl_error_free e))) ->
  preserves I ok (report_error prefix error).
Proof.
  intros Hv Hf. destruct error as [e|]; cbn [report_error].
  - apply preserves_bind; [apply Hv | intros _; apply Hf].
  - apply preserves_ret.
Qed.

Lemma on_statics_invoke (J : globals -> Prop) ok (c : call) :
  (forall r, ok (Ev c r) = true) ->
  preserves (on_statics J) ok (invoke c).
Proof.
  intros Hok. apply preserves_invoke; auto.
Qed.

Ltac step_preserves :=
  repeat lazymatch goal with
    | |- preserves _ _ (ret _) => apply preserves_ret
    | |- preserves _ _ (load _) => apply preserves_load
    | |- preserves _ _ (bind _ _) => apply preserves_bind; [| intro]
    | |- preserves _ _ (if _ then _ else _) => apply preserves_if
    | |- preserves _ _ (report_error _ _) => apply preserves_report; intro
    | |- preserves (on_statics _) _ (invoke _) =>
        apply on_statics_invoke; intro; reflexivity
    | |- preserves (on_statics _) _ (store _) =>
        apply preserves_store; unfold on_statics; cbn; intros ? ?; assumption
    | H : preserves ?I ?ok ?m |- preserves ?I ?ok ?m => exact H
    | H : forall w h, preserves ?I ?ok (clamp_sizes w h)
      |- preserves ?I ?ok (clamp_sizes _ _) => apply H
    end.

(** *** The capability cache, once filled *)

Lemma capability_kept_by_query c b :
  preserves (on_statics (capability_is c b)) no_backend_query
    hardware_supports_npot_sizes.
Proof.
  intros p (Hc & Hb & Hn). rewrite npot_cached by congruence.
  cbn. repeat split; auto.
Qed.

Lemma capability_kept_by_clamp c b width height :
  preserves (on_statics (capability_is c b)) no_backend_query
    (clamp_sizes width height).
Proof. unfold clamp_sizes. step_preserves. Qed.

Lemma capability_kept_by_op c b (o : op) :
  preserves (on_statics (capability_is c b)) no_backend_query (run_op cfg o).
Proof.
  pose proof (capability_kept_by_query c b).
  pose proof (capability_kept_by_clamp c b).
  destruct o as [r g bl a flags | src | | w h | [ | | ]];
    cbn [run_op run_entry];
    unfold meta_create_texture_material, meta_create_color_texture_4ub,
      meta_cogl_texture_new_from_data_wrapper,
      meta_cogl_texture_new_from_file_wrapper,
      meta_cogl_texture_new_with_size_wrapper;
    step_preserves.
Qed.

(** *** The screen-size cache, once filled *)

Lemma screen_kept_by_clamp w h width height :
  preserves (on_statics (screen_is w h)) no_screen_query
    (clamp_sizes width height).
Proof.
  intros p (Hw & Hh & Hn). rewrite clamp_cached by congruence.
  cbn. repeat split; auto.
Qed.

Lemma screen_kept_by_query w h :
  preserves (on_statics (screen_is w h)) no_screen_query
    hardware_supports_npot_sizes.
Proof. unfold hardware_supports_npot_sizes. step_preserves. Qed.

Lemma screen_kept_by_op w h (o : op) :
  preserves (on_statics (screen_is w h)) no_screen_query (run_op cfg o).
Proof.
  pose proof (screen_kept_by_query w h).
  pose proof (screen_kept_by_clamp w h).
  destruct o as [r g bl a flags | src | | wd ht | [ | | ]];
    cbn [run_op run_entry];
    unfold meta_create_texture_material, meta_create_color_texture_4ub,
      meta_cogl_texture_new_from_data_wrapper,
      meta_cogl_texture_new_from_file_wrapper,
      meta_cogl_texture_new_with_size_wrapper;
    step_preserves.
Qed.

(** *** Whole runs *)

Lemma preserves_run I ok (l : list op) :
  (forall o, preserves I ok (run_op cfg o)) ->
  preserves I ok (run_ops cfg l).
Proof.
  intros Hop. induction l as [|o l IH]; cbn [run_ops].
  - apply preserves_ret.
  - apply preserves_bind; [apply Hop | intro].
    apply preserves_bind; [apply IH | intro]. apply preserves_ret.
Qed.

Lemma state_at_succ (o : op) (l : list op) (n : nat) (p : process) :
  state_at cfg (o :: l) (S n) p = state_at cfg l n (after (run_op cfg o p)).
Proof. reflexivity. Qed.

Lemma nth_outcome (l : list op) (n : nat) (o : op) (p : process) :
  nth_error l n = Some o ->
  nth_error (value (run_ops cfg l p)) n
  = Some (value (run_op cfg o (state_at cfg l n p))).
Proof.
  revert n p. induction l as [|o' l IH]; intros [|n] p Hn; try discriminate.
  - injection Hn as ->. reflexivity.
  - rewrite state_at_succ. cbn [value fst nth_error].
    now apply IH.
Qed.

Lemma forallb_negb_existsb {A} (f : A -> bool) (l : list A) :
  forallb (fun x => negb (f x)) l = true -> existsb f l = false.
Proof.
  induction l as [|x l IH]; cbn; [reflexivity|].
  intros [Hx Hl]%andb_prop. apply negb_true_iff in Hx.
  now rewrite Hx, IH.
Qed.

(** ** C2 and C7: what the clamp computes *)

(** C2.  Whatever the screen-size cache holds when [clamp_sizes] has done
    its lookup, width W and height H with 2*W and 2*H representable as
    [gint], the requested width becomes min(width, 2*W) and the requested
    height min(height, 2*H).  When the cache was filled before the call the
    call changes nothing and asks nobody, so W and H are the values held
    before.  With 1920x1080 cached, (10000, 10000) becomes (3840, 2160) and
    (800, 600) stays. *)
Theorem clamp_sizes_min (p : process) (width height : gint) :
  in_gint (2 * screen_width (statics (after (clamp_sizes width height p)))) ->
  in_gint (2 * screen_height (statics (after (clamp_sizes width height p)))) ->
  value (clamp_sizes width height p)
  = (Z.min width
       (2 * screen_width (statics (after (clamp_sizes width height p)))),
     Z.min height
       (2 * screen_height (statics (after (clamp_sizes width height p))))) /\
  (screen_width (statics p) <> 0 ->
   after (clamp_sizes width height p) = p /\
   calls (clamp_sizes width height p) = [] /\
   value (clamp_sizes width height p)
   = (Z.min width (2 * screen_width (statics p)),
      Z.min height (2 * screen_height (statics p)))) /\
  (screen_width (statics (after (clamp_sizes width height p))) = 1920 ->
   screen_height (statics (after (clamp_sizes width height p))) = 1080 ->
   (width = 10000 -> height = 10000 ->
    value (clamp_sizes width height p) = (3840, 2160)) /\
   (width = 800 -> height = 600 ->
    value (clamp_sizes width height p) = (800, 600))).
Proof.
  intros HW HH.
  assert (Hmin : value (clamp_sizes width height p)
    = (Z.min width
         (2 * screen_width (statics (after (clamp_sizes width height p)))),
       Z.min height
         (2 * screen_height (statics (after (clamp_sizes width height p)))))).
  { rewrite clamp_value, !MIN_is_min, !gint_double by assumption.
    reflexivity. }
  split; [exact Hmin|]. split.
  - intros Hw. rewrite Hmin. rewrite clamp_cached by assumption.
    cbn. auto.
  - intros EW EH. rewrite Hmin, EW, EH.
    split; intros -> ->; reflexivity.
Qed.

(** C7, as the code has it.  While the cached width is 0, a call to
    [clamp_sizes] asks for the default screen and its width and height and
    caches what it is told, and clamps against that.  So when the screen
    reports width 0 the cache is as empty as before and the next call asks
    again; the call itself yields (MIN (width, 0), MIN (height, 2*h)) for
    the reported height h, which is (0, 0) when h is 0 too and the request
    is not negative. *)
Theorem clamp_with_empty_cache (p : process) (width height : gint) :
  screen_width (statics p) = 0 ->
  exists (screen : GdkScreen) (w h : gint),
    calls (clamp_sizes width height p)
    = [ Ev Gdk_screen_get_default screen;
        Ev (Gdk_screen_get_width screen) w;
        Ev (Gdk_screen_get_height screen) h ] /\
    screen_width (statics (after (clamp_sizes width height p))) = w /\
    screen_height (statics (after (clamp_sizes width height p))) = h /\
    value (clamp_sizes width height p)
    = (MIN width (gint_mul w 2), MIN height (gint_mul h 2)) /\
    (w = 0 -> h = 0 -> 0 <= width -> 0 <= height ->
     value (clamp_sizes width height p) = (0, 0)).
Proof.
  intros Hw.
  eexists _, _, _.
  unfold clamp_sizes. cbn. rewrite Hw. cbn.
  repeat split.
  intros -> -> Hwd Hht. cbn. unfold MIN.
  destruct (Z.ltb_spec width 0); destruct (Z.ltb_spec height 0);
    f_equal; lia.
Qed.

(** ** C3: the caches are sticky *)

(** C3.  Once the capability cache is filled (the cached context is not
    [NULL]), any run of the module, of whatever operations, leaves the
    cached context and capability as they are and never asks the backend
    again, and every capability query in the run answers the cached value.
    Once the screen-size cache is filled (the cached width is not 0), any
    run leaves the cached width and height as they are and never asks the
    screen again, and every clamp in the run clamps against the cached
    values. *)
Theorem caches_are_sticky (l : list op) (p : process) :
  (cogl_context (statics p) <> NULL ->
   cogl_context (statics (after (run_ops cfg l p)))
   = cogl_context (statics p) /\
   supports_npot (statics (after (run_ops cfg l p)))
   = supports_npot (statics p) /\
   existsb is_backend_query (calls (run_ops cfg l p)) = false /\
   forall n, nth_error l n = Some Hardware_supports_npot_sizes ->
     nth_error (value (run_ops cfg l p)) n
     = Some (Flag (supports_npot (statics p)))) /\
  (screen_width (statics p) <> 0 ->
   screen_width (statics (after (run_ops cfg l p)))
   = screen_width (statics p) /\
   screen_height (statics (after (run_ops cfg l p)))
   = screen_height (statics p) /\
   existsb is_screen_query (calls (run_ops cfg l p)) = false /\
   forall n width height, nth_error l n = Some (Clamp_sizes width height) ->
     nth_error (value (run_ops cfg l p)) n
     = Some (Size (MIN width (gint_mul (screen_width (statics p)) 2))
                  (MIN height (gint_mul (screen_height (statics p)) 2)))).
Proof.
  split.
  - intros Hctx.
    set (I := on_statics (capability_is (cogl_context (statics p))
                            (supports_npot (statics p)))).
    assert (Hrun : forall k, preserves I no_backend_query (run_ops cfg k)).
    { intros k. apply preserves_run. intro. apply capability_kept_by_op. }
    assert (Hp : I p) by (repeat split; auto).
    destruct (Hrun l p Hp) as ((Ec & Eb & _) & Hq).
    repeat split; auto.
    + now apply forallb_negb_existsb.
    + intros n Hn. rewrite (nth_outcome _ _ _ _ Hn). cbn [run_op].
      destruct (Hrun (firstn n l) p Hp) as ((Ec' & Eb' & _) & _).
      fold (state_at cfg l n p) in Ec', Eb'. cbn.
      rewrite npot_cached by congruence. cbn. now rewrite Eb'.
  - intros Hw.
    set (I := on_statics (screen_is (screen_width (statics p))
                            (screen_height (statics p)))).
    assert (Hrun : forall k, preserves I no_screen_query (run_ops cfg k)).
    { intros k. apply preserves_run. intro. apply screen_kept_by_op. }
    assert (Hp : I p) by (repeat split; auto).
    destruct (Hrun l p Hp) as ((Ew & Eh & _) & Hq).
    repeat split; auto.
    + now apply forallb_negb_existsb.
    + intros n width height Hn. rewrite (nth_outcome _ _ _ _ Hn).
      destruct (Hrun (firstn n l) p Hp) as ((Ew' & Eh' & _) & _).
      fold (state_at cfg l n p) in Ew', Eh'. cbn.
      rewrite clamp_cached by congruence. cbn. now rewrite Ew', Eh'.
Qed.

(** ** C1: the dispatch *)

Lemma report_calls (prefix : string) (error : option CoglError) (p : process) :
  calls (report_error prefix error p) = error_report prefix error.
Proof.
  destruct error as [e|]; [|reflexivity].
  unfold report_error. cbn.
  repeat match goal with
    | |- context [Ev ?c ?r] =>
        lazymatch r with tt => fail | _ => destruct r end
    end.
  reflexivity.
Qed.

Lemma report_statics (prefix : string) (error : option CoglError)
    (p : process) :
  statics (after (report_error prefix error p)) = statics p.
Proof. destruct error; reflexivity. Qed.

Ltac name_answer :=
  match goal with
  | |- context [respond ?c ?w] =>
      let ans := fresh "ans" in
      let w' := fresh "w" in
      destruct (respond c w) as [ans w']; cbn [fst snd];
      let T := type of ans in
      let T' := eval cbn in T in
      lazymatch T' with
      | (_ * _)%type => destruct ans; cbn [fst snd]
      | _ => idtac
      end
  end.

Ltac fold_results :=
  repeat match goal with
    | |- context [snd (report_error ?s ?e ?p)] =>
        change (snd (report_error s e p)) with (calls (report_error s e p))
    end.

(** C1, as the code has it.  Each entry point asks
    [hardware_supports_npot_sizes] once (after the clamp, where there is
    one) and then calls exactly one constructor, whose handle it returns.
    From data: the 2D constructor with the cached context, the clamped
    size, the caller's pixel format, the row stride and the data; or the
    legacy one with the clamped size, the flags, the pixel format and the
    internal format.  From a file: the 2D constructor with the cached
    context and the file name; or the legacy one with the file name, the
    flags and the internal format; neither is given a pixel format.  With a
    size: the 2D constructor with the cached context and the clamped size;
    or the legacy one with the clamped size, the flags and the internal
    format; neither is given a pixel format.  Before Cogl 1.18 the 2D
    constructors get one more argument, [COGL_PIXEL_FORMAT_ANY] or
    [CLUTTER_CAIRO_FORMAT_ARGB32]. *)
Theorem dispatch_by_capability (p : process) :
  (forall width height flags format internal_format rowstride data,
     let r := meta_cogl_texture_new_from_data_wrapper cfg width height flags
                format internal_format rowstride data p in
     let r0 := clamp_sizes width height p in
     let r1 := hardware_supports_npot_sizes (after r0) in
     if value r1
     then exists texture error,
       calls r = calls r0 ++ calls r1
         ++ Ev (Cogl_texture_2d_new_from_data
                  (cogl_context (statics (after r1)))
                  (fst (value r0)) (snd (value r0)) format
                  (before_1_18 cfg COGL_PIXEL_FORMAT_ANY) rowstride data)
               (texture, error)
            :: error_report "cogl_texture_2d_new_from_data failed: " error /\
       value r = texture
     else exists texture,
       calls r = calls r0 ++ calls r1
         ++ [Ev (Cogl_texture_new_from_data (fst (value r0)) (snd (value r0))
                   flags format internal_format rowstride data) texture] /\
       value r = texture) /\
  (forall filename flags internal_format,
     let r := meta_cogl_texture_new_from_file_wrapper cfg filename flags
                internal_format p in
     let r1 := hardware_supports_npot_sizes p in
     if value r1
     then exists texture error,
       calls r = calls r1
         ++ Ev (Cogl_texture_2d_new_from_file
                  (cogl_context (statics (after r1))) filename
                  (before_1_18 cfg COGL_PIXEL_FORMAT_ANY))
               (texture, error)
            :: error_report "cogl_texture_(2d)_new_from_file failed: " error /\
       value r = texture
     else exists texture error,
       calls r = calls r1
         ++ Ev (Cogl_texture_new_from_file filename flags internal_format)
               (texture, error)
            :: error_report "cogl_texture_(2d)_new_from_file failed: " error /\
       value r = texture) /\
  (forall width height flags internal_format,
     let r := meta_cogl_texture_new_with_size_wrapper cfg width height flags
                internal_format p in
     let r0 := clamp_sizes width height p in
     let r1 := hardware_supports_npot_sizes (after r0) in
     if value r1
     then exists texture,
       calls r = calls r0 ++ calls r1
         ++ [Ev (Cogl_texture_2d_new_with_size
                   (cogl_context (statics (after r1)))
                   (fst (value r0)) (snd (value r0))
                   (before_1_18 cfg (CLUTTER_CAIRO_FORMAT_ARGB32 cfg)))
                texture] /\
       value r = texture
     else exists texture,
       calls r = calls r0 ++ calls r1
         ++ [Ev (Cogl_texture_new_with_size (fst (value r0)) (snd (value r0))
                   flags internal_format) texture] /\
       value r = texture).
Proof.
  repeat split; intros; subst r;
    unfold meta_cogl_texture_new_from_data_wrapper,
      meta_cogl_texture_new_from_file_wrapper,
      meta_cogl_texture_new_with_size_wrapper; cbn;
    try fold r0; fold r1; destruct (value r1); cbn;
    name_answer;
    unfold calls, value; cbn [fst snd]; fold_results;
    rewrite ?report_calls, ?app_nil_r; unfold COGL_TEXTURE;
    repeat eexists.
Qed.

(** ** C6: errors *)

Lemma queries_preserve (J : globals -> Prop) ok :
  (forall e, (is_backend_query e || is_screen_query e)%bool = true ->
             ok e = true) ->
  (forall g c, J g -> J (set_cogl_context c g)) ->
  (forall g b, J g -> J (set_supports_npot b g)) ->
  (forall g z, J g -> J (set_screen_width z g)) ->
  (forall g z, J g -> J (set_screen_height z g)) ->
  preserves (on_statics J) ok hardware_supports_npot_sizes /\
  forall width height, preserves (on_statics J) ok (clamp_sizes width height).
Proof.
  intros Hok J1 J2 J3 J4.
  assert (Hinv : forall c, (forall r, (is_backend_query (Ev c r)
                              || is_screen_query (Ev c r))%bool = true) ->
                 preserves (on_statics J) ok (invoke c)).
  { intros c Hc. apply on_statics_invoke. intro r. apply Hok, Hc. }
  assert (Hst : forall u, (forall g, J g -> J (u g)) ->
                preserves (on_statics J) ok (store u)).
  { intros u Hu. apply preserves_store. intros p Hp. apply Hu, Hp. }
  split; [|intros width height];
    unfold hardware_supports_npot_sizes, clamp_sizes;
    repeat lazymatch goal with
      | |- preserves _ _ (ret _) => apply preserves_ret
      | |- preserves _ _ (load _) => apply preserves_load
      | |- preserves _ _ (bind _ _) => apply preserves_bind; [| intro]
      | |- preserves _ _ (if _ then _ else _) => apply preserves_if
      | |- preserves _ _ (invoke _) => apply Hinv; intro; reflexivity
      | |- preserves _ _ (store _) => apply Hst; intros; auto
      end.
Qed.

Lemma queries_only (ok : event -> bool) (p : process) :
  (forall e, (is_backend_query e || is_screen_query e)%bool = true ->
             ok e = true) ->
  forallb ok (calls (hardware_supports_npot_sizes p)) = true /\
  forall width height, forallb ok (calls (clamp_sizes width height p)) = true.
Proof.
  intros Hok.
  destruct (queries_preserve anything ok Hok) as (Hq & Hc);
    try (intros; exact I).
  split; [|intros width height].
  - now apply Hq.
  - now apply Hc.
Qed.

Lemma no_error_handling_queries (e : event) :
  (is_backend_query e || is_screen_query e)%bool = true ->
  no_error_handling e = true.
Proof. destruct e as [[] r]; cbn; congruence. Qed.

Lemma no_constructor_queries (e : event) :
  (is_backend_query e || is_screen_query e)%bool = true ->
  no_constructor e = true.
Proof. destruct e as [[] r]; cbn; congruence. Qed.

(** C6, as the code has it.  Each entry point makes its queries, calls one
    constructor and returns that constructor's handle.  When the
    constructor stored an error, which only the 2D from-data constructor
    and the two from-file constructors, legacy and 2D, can do, the wrapper
    next logs the error's message through [meta_verbose] and frees the
    error; otherwise it does neither.  The legacy from-data constructor and
    the two with-size constructors take no error argument, and the colour
    and material helpers never log or free anything. *)
Theorem errors_logged_and_dropped (p : process) :
  (forall e : entry,
     exists before ev,
       calls (run_entry cfg e p)
       = before ++ ev :: error_report (log_prefix e) (error_of ev) /\
       forallb no_error_handling before = true /\
       forallb no_constructor before = true /\
       is_constructor ev = true /\
       handle_of ev = Some (value (run_entry cfg e p)) /\
       (error_of ev = None \/ takes_error (event_call ev) = true)) /\
  (forall red green blue alpha flags,
     existsb is_error_handling
       (calls (meta_create_color_texture_4ub red green blue alpha flags p))
     = false) /\
  (forall src_texture,
     existsb is_error_handling
       (calls (meta_create_texture_material src_texture p)) = false).
Proof.
  split; [|split].
  - intros e.
    assert (Hq := fun q => queries_only no_error_handling q
                             no_error_handling_queries).
    assert (Hc := fun q => queries_only no_constructor q
                             no_constructor_queries).
    destruct e as [w h flags format ifmt rs data
                  | filename flags ifmt | w h flags ifmt];
      cbn [run_entry log_prefix];
      unfold meta_cogl_texture_new_from_data_wrapper,
        meta_cogl_texture_new_from_file_wrapper,
        meta_cogl_texture_new_with_size_wrapper; cbn;
      try set (r0 := clamp_sizes w h p);
      match goal with
      | |- context [hardware_supports_npot_sizes ?q] =>
          set (r1 := hardware_supports_npot_sizes q);
          pose proof (proj1 (Hq q)) as Q1; pose proof (proj1 (Hc q)) as C1;
          fold r1 in Q1, C1
      end;
      try (pose proof (proj2 (Hq p) w h) as Q0;
           pose proof (proj2 (Hc p) w h) as C0; fold r0 in Q0, C0);
      destruct (value r1); cbn;
      name_answer;
      unfold calls, value in *; cbn [fst snd]; fold_results;
      rewrite ?report_calls, ?app_nil_r; unfold COGL_TEXTURE;
      rewrite ?app_assoc;
      match goal with
      | |- exists before ev, ?pre ++ ?x :: _ = _ /\ _ => exists pre, x
      end;
      cbn [error_of snd fst error_report];
      (split; [reflexivity|]);
      rewrite ?forallb_app, ?Q0, ?Q1, ?C0, ?C1;
      repeat split; auto.
  - intros. reflexivity.
  - intros src.
    unfold meta_create_texture_material, meta_create_color_texture_4ub.
    cbn. destruct (is_null (texture_material_template (statics p)));
      destruct (is_null src); reflexivity.
Qed.

(** ** C8: who clamps *)

Lemma filter_nothing {A} (f : A -> bool) (l : list A) :
  forallb (fun x => negb (f x)) l = true -> filter f l = [].
Proof.
  induction l as [|x l IH]; cbn; [reflexivity|].
  intros [Hx Hl]%andb_prop. apply negb_true_iff in Hx.
  rewrite Hx. now apply IH.
Qed.

Lemma screen_untouched_by_query (p : process) :
  screen_width (statics (after (hardware_supports_npot_sizes p)))
  = screen_width (statics p) /\
  screen_height (statics (after (hardware_supports_npot_sizes p)))
  = screen_height (statics p).
Proof.
  unfold hardware_supports_npot_sizes. cbn.
  destruct (is_null (cogl_context (statics p))); cbn; auto.
Qed.

(** C8.  The from-data and the with-size entry points start with the calls
    of [clamp_sizes] on the requested size, and the one constructor they
    call is asked for the size that [clamp_sizes] returned; the screen-size
    cache is left as the clamp left it.  The from-file entry point makes no
    screen query and leaves the cached width and height as they were,
    whatever they were. *)
Theorem clamp_only_for_data_and_size (p : process) :
  (forall width height flags format internal_format rowstride data,
     let r := meta_cogl_texture_new_from_data_wrapper cfg width height flags
                format internal_format rowstride data p in
     let r0 := clamp_sizes width height p in
     (exists rest, calls r = calls r0 ++ rest) /\
     (exists ev, constructor_events (calls r) = [ev] /\
                 size_of (event_call ev) = Some (value r0)) /\
     screen_width (statics (after r)) = screen_width (statics (after r0)) /\
     screen_height (statics (after r)) = screen_height (statics (after r0))) /\
  (forall width height flags internal_format,
     let r := meta_cogl_texture_new_with_size_wrapper cfg width height flags
                internal_format p in
     let r0 := clamp_sizes width height p in
     (exists rest, calls r = calls r0 ++ rest) /\
     (exists ev, constructor_events (calls r) = [ev] /\
                 size_of (event_call ev) = Some (value r0)) /\
     screen_width (statics (after r)) = screen_width (statics (after r0)) /\
     screen_height (statics (after r)) = screen_height (statics (after r0))) /\
  (forall filename flags internal_format,
     let r := meta_cogl_texture_new_from_file_wrapper cfg filename flags
                internal_format p in
     existsb is_screen_query (calls r) = false /\
     screen_width (statics (after r)) = screen_width (statics p) /\
     screen_height (statics (after r)) = screen_height (statics p)).
Proof.
  assert (Hc := fun q => queries_only no_constructor q no_constructor_queries).
  split; [|split]; intros; subst r.
  1,2: unfold meta_cogl_texture_new_from_data_wrapper,
         meta_cogl_texture_new_with_size_wrapper; cbn; fold r0;
       set (r1 := hardware_supports_npot_sizes (after r0));
       pose proof (proj2 (Hc p) width height) as C0; fold r0 in C0;
       pose proof (proj1 (Hc (after r0))) as C1; fold r1 in C1;
       destruct (screen_untouched_by_query (after r0)) as (Ew & Eh);
       fold r1 in Ew, Eh;
       apply filter_nothing in C0, C1;
       destruct (value r1); cbn; name_answer;
       unfold calls, value in *; cbn [fst snd]; fold_results;
       rewrite ?report_calls, ?app_nil_r, ?report_statics;
       (split; [eexists; reflexivity|]);
       unfold constructor_events;
       rewrite !filter_app, C0, C1; cbn [app statics];
       (split; [|now split]);
       match goal with |- context [filter _ (?x :: _)] => exists x end;
       (split; [cbn; try (destruct o); reflexivity|]);
       cbn; now destruct (fst (fst r0)).
  assert (Hs : preserves
                 (on_statics (fun g => screen_width g = screen_width (statics p)
                                /\ screen_height g = screen_height (statics p)))
                 no_screen_query
                 (meta_cogl_texture_new_from_file_wrapper cfg filename flags
                    internal_format)).
  { unfold meta_cogl_texture_new_from_file_wrapper,
      hardware_supports_npot_sizes.
    step_preserves. }
  destruct (Hs p) as ((Ew & Eh) & Hq); [now split|].
  split; [now apply forallb_negb_existsb | now split].
Qed.

(** ** C9: what the new path does not look at *)

(** C9.  When the capability query made inside the call answers that
    non-power-of-two sizes are supported, the from-data and the with-size
    entry points give the same handle, leave the same process and make the
    same calls with the same answers whatever the caller passes as flags
    and as internal format. *)
Theorem npot_path_ignores_flags_and_internal_format
    (p : process) (width height : gint) (flags1 flags2 : CoglTextureFlags)
    (internal_format1 internal_format2 : CoglPixelFormat) :
  value (hardware_supports_npot_sizes (after (clamp_sizes width height p)))
  = true ->
  (forall format rowstride data,
     meta_cogl_texture_new_from_data_wrapper cfg width height flags1 format
       internal_format1 rowstride data p
     = meta_cogl_texture_new_from_data_wrapper cfg width height flags2 format
         internal_format2 rowstride data p) /\
  meta_cogl_texture_new_with_size_wrapper cfg width height flags1
    internal_format1 p
  = meta_cogl_texture_new_with_size_wrapper cfg width height flags2
      internal_format2 p.
Proof.
  intros Hnpot. unfold value, after in Hnpot.
  split; [intros format rowstride data|];
    unfold meta_cogl_texture_new_from_data_wrapper,
      meta_cogl_texture_new_with_size_wrapper; cbn;
    unfold value, after; rewrite Hnpot; reflexivity.
Qed.

(** ** C4 and C10: the colour texture *)

(** C4.  For all four channel bytes, [meta_create_color_texture_4ub] makes
    one call: the texture constructor, for a 1x1 texture in
    [COGL_PIXEL_FORMAT_RGBA_8888_PRE] with row stride 4, on the four bytes
    red, green, blue, alpha of the premultiplied colour, and returns the
    handle of that call; so it does for (255, 0, 0, 255). *)
Theorem color_texture_pixel
    (red green blue alpha : guint8) (flags : CoglTextureFlags) (p : process) :
  let color :=
    cogl_color_premultiply (cogl_color_set_from_4ub red green blue alpha) in
  let red_only :=
    cogl_color_premultiply (cogl_color_set_from_4ub xff x00 x00 xff) in
  calls (meta_create_color_texture_4ub red green blue alpha flags p)
  = [ Ev (Cogl_texture_new_from_data 1 1 flags
            COGL_PIXEL_FORMAT_RGBA_8888_PRE COGL_PIXEL_FORMAT_ANY 4
            [ cogl_color_get_red_byte color;
              cogl_color_get_green_byte color;
              cogl_color_get_blue_byte color;
              cogl_color_get_alpha_byte color ])
         (value (meta_create_color_texture_4ub red green blue alpha flags p)) ]
  /\
  calls (meta_create_color_texture_4ub xff x00 x00 xff flags p)
  = [ Ev (Cogl_texture_new_from_data 1 1 flags
            COGL_PIXEL_FORMAT_RGBA_8888_PRE COGL_PIXEL_FORMAT_ANY 4
            [ cogl_color_get_red_byte red_only;
              cogl_color_get_green_byte red_only;
              cogl_color_get_blue_byte red_only;
              cogl_color_get_alpha_byte red_only ])
         (value (meta_create_color_texture_4ub xff x00 x00 xff flags p)) ].
Proof. split; reflexivity. Qed.

(** C10.  [meta_create_color_texture_4ub] makes exactly one call, to the
    legacy [cogl_texture_new_from_data], for the size 1x1; it makes no
    backend or screen query and calls no 2D constructor; it leaves every
    static as it was; and with the same world it returns the same handle,
    makes the same call and leaves the same world whatever the statics
    hold. *)
Theorem color_texture_bypasses_dispatch
    (red green blue alpha : guint8) (flags : CoglTextureFlags) (p : process) :
  let r := meta_create_color_texture_4ub red green blue alpha flags p in
  (exists ev, calls r = [ev] /\
     constructor_of (event_call ev) = Some Legacy /\
     size_of (event_call ev) = Some (1, 1) /\
     event_call ev
     = Cogl_texture_new_from_data 1 1 flags COGL_PIXEL_FORMAT_RGBA_8888_PRE
         COGL_PIXEL_FORMAT_ANY 4 (premultiplied_pixel red green blue alpha) /\
     handle_of ev = Some (value r)) /\
  existsb is_backend_query (calls r) = false /\
  existsb is_screen_query (calls r) = false /\
  statics (after r) = statics p /\
  forall g : globals,
    let r' := meta_create_color_texture_4ub red green blue alpha flags
                (with_statics g p) in
    value r' = value r /\ calls r' = calls r /\
    world (after r') = world (after r) /\ statics (after r') = g.
Proof.
  cbn. repeat split. eexists. repeat split.
Qed.

End Properties.

(** * The material template *)

Section Materials.

Context `{World} `{CoglColorAPI} `{!CoglContract}.
Variable cfg : build.

Lemma benign_releases (c : call) (r : answer c) (h : CoglHandle) :
  benign (Ev c r) = true -> releases c h = false.
Proof. destruct c; cbn; congruence. Qed.

Lemma benign_writes (c : call) (r : answer c) (m : CoglHandle) (i : Z) :
  benign (Ev c r) = true -> writes_layer c m i = false.
Proof. destruct c; cbn; congruence. Qed.

Lemma benign_not_new (l : trace) :
  forallb benign l = true -> filter is_material_new l = [].
Proof.
  induction l as [|[c r] l IH]; cbn [forallb filter]; [reflexivity|].
  intros [Hc Hl]%andb_prop.
  destruct c; cbn in Hc |- *; try discriminate; now apply IH.
Qed.

Lemma settled_invoke t hs w0 (c : call) :
  (forall r, benign (Ev c r) = true) ->
  preserves (settled t hs w0) benign (invoke c).
Proof.
  intros Hb. apply preserves_invoke; [|exact Hb].
  intros p (Ht & Hh). split; [exact Ht|].
  intros h Hin. destruct (Hh h Hin) as (Hl & Hy). cbn.
  pose proof (Hb (fst (respond c (world p)))) as Hc.
  split.
  - apply live_kept; [exact Hl | exact (benign_releases _ _ _ Hc)].
  - rewrite layer_kept; [exact Hy | exact Hl
                        | exact (benign_writes _ _ _ _ Hc)].
Qed.

Lemma settled_store t hs w0 (update : globals -> globals) :
  (forall g, texture_material_template (update g)
             = texture_material_template g) ->
  preserves (settled t hs w0) benign (store update).
Proof.
  intros Hu. apply preserves_store. intros p (Ht & Hh).
  split; [cbn; now rewrite Hu | exact Hh].
Qed.

Ltac step_settled :=
  repeat lazymatch goal with
    | |- preserves _ _ (ret _) => apply preserves_ret
    | |- preserves _ _ (load _) => apply preserves_load
    | |- preserves _ _ (bind _ _) => apply preserves_bind; [| intro]
    | |- preserves _ _ (if _ then _ else _) => apply preserves_if
    | |- preserves _ _ (report_error _ _) => apply preserves_report; intro
    | |- preserves _ _ (invoke _) =>
        apply settled_invoke; intro; reflexivity
    | |- preserves _ _ (store _) =>
        apply settled_store; intro; reflexivity
    end.

Lemma settled_op t hs w0 (o : op) :
  (forall src, o <> Create_texture_material src) ->
  preserves (settled t hs w0) benign (run_op cfg o).
Proof.
  intros Ho.
  destruct o as [r g bl a flags | src | | wd ht | [ | | ]];
    [ | now elim (Ho src) | .. ];
    cbn [run_op run_entry];
    unfold meta_create_color_texture_4ub,
      meta_cogl_texture_new_from_data_wrapper,
      meta_cogl_texture_new_from_file_wrapper,
      meta_cogl_texture_new_with_size_wrapper,
      hardware_supports_npot_sizes, clamp_sizes;
    step_settled.
Qed.

Lemma other_op_keeps_template (o : op) (p : process) (history : trace)
    (mats : list CoglHandle) :
  (forall src, o <> Create_texture_material src) ->
  template_invariant p history mats ->
  template_invariant (after (run_op cfg o p))
    (history ++ calls (run_op cfg o p)) mats.
Proof.
  intros Ho (Hm & Hnone & Hsome).
  set (t := texture_material_template (statics p)) in *.
  destruct (N.eq_dec t COGL_INVALID_HANDLE) as [Et|Et].
  - destruct (settled_op t [] (world p) o Ho p) as ((Ht & _) & Hb).
    { split; [reflexivity | intros h []]. }
    apply benign_not_new in Hb.
    unfold template_invariant. rewrite Ht.
    split; [|split].
    + intros m Hin. now destruct (Hm m Hin) as (_ & _ & Hc).
    + intros _. rewrite filter_app, Hb, app_nil_r. now apply Hnone.
    + contradiction.
  - destruct (Hsome Et) as (Hone & Hlive & d & Hd & Hin).
    destruct (settled_op t (t :: mats) (world p) o Ho p) as ((Ht & Hh) & Hb).
    { split; [reflexivity|]. intros h [<-|Hh]; [now split|].
      split; [apply (Hm h Hh) | reflexivity]. }
    apply benign_not_new in Hb.
    unfold template_invariant. rewrite Ht.
    split; [|split].
    + intros m Hin'. split; [apply Hh; now right | apply (Hm m Hin')].
    + contradiction.
    + intros _. rewrite filter_app, Hb, app_nil_r.
      split; [exact Hone|]. split; [apply Hh; now left|].
      exists d. split.
      * destruct (Hh t (or_introl eq_refl)) as (_ & ->). exact Hd.
      * apply in_or_app. now left.
Qed.

Lemma material_unfold (src : CoglHandle) (p : process) :
  meta_create_texture_material src p
  = if is_null (texture_material_template (statics p))
    then (value (copy_template src (after (build_template p))),
          after (copy_template src (after (build_template p))),
          calls (build_template p)
            ++ calls (copy_template src (after (build_template p))))
    else copy_template src p.
Proof.
  unfold meta_create_texture_material, copy_template, build_template.
  cbn. destruct (is_null (texture_material_template (statics p)));
    destruct (is_null src); cbn; rewrite ?app_nil_r; try reflexivity.
  all: now destruct p.
Qed.

Ltac name_first_call :=
  match goal with
  | |- context [respond ?c ?w] =>
      lazymatch c with context [respond _ _] => fail | _ => idtac end;
      lazymatch w with context [respond _ _] => fail | _ => idtac end;
      let a := fresh "a" in
      let w' := fresh "w" in
      let E := fresh "E" in
      destruct (respond c w) as [a w'] eqn:E; cbn [fst snd] in *
  end.

Lemma kept_live (c : call) (w w' : W) (a : answer c) (h : CoglHandle) :
  respond c w = (a, w') -> releases c h = false -> live w h -> live w' h.
Proof.
  intros E Hr Hl. pose proof (live_kept c w h Hl Hr) as Hk.
  now rewrite E in Hk.
Qed.

Lemma kept_layer (c : call) (w w' : W) (a : answer c) (m : CoglHandle)
    (i : Z) :
  respond c w = (a, w') -> writes_layer c m i = false -> live w m ->
  layer w' m i = layer w m i.
Proof.
  intros E Hr Hl. pose proof (layer_kept c w m i Hl Hr) as Hk.
  now rewrite E in Hk.
Qed.

Lemma set_layer_other (m m' : CoglHandle) (i : Z) (t : CoglHandle) :
  m <> m' -> writes_layer (Cogl_material_set_layer m i t) m' i = false.
Proof.
  intros Hne. cbn. apply N.eqb_neq in Hne. now rewrite Hne.
Qed.

Lemma copy_spec (src : CoglHandle) (q : process) (mats : list CoglHandle) :
  let t := texture_material_template (statics q) in
  let r := copy_template src q in
  live (world q) t ->
  (forall m, In m mats -> live (world q) m) ->
  statics (after r) = statics q /\
  value r <> COGL_INVALID_HANDLE /\
  value r <> t /\
  ~ In (value r) mats /\
  live (world (after r)) (value r) /\
  live (world (after r)) t /\
  (forall m, In m mats -> live (world (after r)) m) /\
  layer (world (after r)) t 0 = layer (world q) t 0 /\
  filter is_material_new (calls r) = [] /\
  In (Ev (Cogl_material_copy t) (value r)) (calls r) /\
  (src <> COGL_INVALID_HANDLE ->
   layer (world (after r)) (value r) 0 = Some src) /\
  (src = COGL_INVALID_HANDLE ->
   layer (world (after r)) (value r) 0 = layer (world q) t 0).
Proof.
  intros t r Ht Hmats. subst r. unfold copy_template. cbn. fold t.
  pose proof (copy_is_fresh (world q) t Ht) as (Hv & Hfresh & Hlive & Hlayers).
  name_first_call.
  assert (Hat : a <> t) by (intros ->; now apply Hfresh).
  assert (Hamats : ~ In a mats) by (intros Hin; now apply Hfresh, Hmats).
  pose proof (kept_live _ _ _ _ t E eq_refl Ht) as Hlt.
  pose proof (kept_layer _ _ _ _ t 0 E eq_refl Ht) as Hyt.
  assert (Hlm : forall m, In m mats -> live w m).
  { intros m Hin. apply (kept_live _ _ _ _ m E eq_refl), Hmats, Hin. }
  destruct (is_null src) eqn:Es; cbn.
  - apply is_null_true in Es.
    repeat split; auto.
    intros Hs. contradiction.
  - name_first_call.
    pose proof (set_layer_sets w a 0 src Hlive) as Hset.
    rewrite E0 in Hset. cbn [snd] in Hset.
    repeat split; auto.
    + apply (kept_live _ _ _ _ a E0 eq_refl Hlive).
    + apply (kept_live _ _ _ _ t E0 eq_refl Hlt).
    + intros m Hin. apply (kept_live _ _ _ _ m E0 eq_refl), Hlm, Hin.
    + rewrite (kept_layer _ _ _ _ t 0 E0 (set_layer_other _ _ _ _ Hat) Hlt).
      exact Hyt.
    + intros ->. discriminate.
Qed.

Lemma build_spec (p : process) :
  let r := build_template p in
  let t' := texture_material_template (statics (after r)) in
  t' <> COGL_INVALID_HANDLE /\
  live (world (after r)) t' /\
  List.length (filter is_material_new (calls r)) = 1%nat /\
  exists d, layer (world (after r)) t' 0 = Some d /\
            In (Ev white_texture_call d) (calls r).
Proof.
  intros r t'. subst r t'.
  unfold build_template, meta_create_color_texture_4ub. cbn.
  pose proof (texture_is_live (world p) 1 1 COGL_TEXTURE_NONE
                COGL_PIXEL_FORMAT_RGBA_8888_PRE COGL_PIXEL_FORMAT_ANY 4
                (premultiplied_pixel xff xff xff xff)) as Hd.
  cbn in Hd. unfold premultiplied_pixel in Hd.
  name_first_call. rename a into d, w into w1.
  pose proof (new_is_fresh w1) as (Hv & Hfresh & Hlive).
  name_first_call. rename a into t, w into w2.
  assert (Hdt : d <> t).
  { intros ->. destruct Hd as [Hd|Hd]; [contradiction | now apply Hfresh]. }
  pose proof (set_layer_sets w2 t 0 d Hlive) as Hset.
  name_first_call. rename w into w3.
  pose proof (kept_live _ _ _ _ t E1 eq_refl Hlive) as Hl3.
  name_first_call. rename w into w4.
  assert (Hrel : releases (Cogl_handle_unref d) t = false).
  { cbn. now apply N.eqb_neq. }
  repeat split.
  - exact Hv.
  - exact (kept_live _ _ _ _ t E2 Hrel Hl3).
  - exists d. split.
    + rewrite (kept_layer _ _ _ _ t 0 E2 Hrel Hl3). exact Hset.
    + left. reflexivity.
Qed.

Lemma material_step (src : CoglHandle) (p : process) (history : trace)
    (mats : list CoglHandle) :
  template_invariant p history mats ->
  let r := meta_create_texture_material src p in
  let t' := texture_material_template (statics (after r)) in
  template_invariant (after r) (history ++ calls r) (mats ++ [value r]) /\
  (texture_material_template (statics p) <> COGL_INVALID_HANDLE ->
   t' = texture_material_template (statics p)) /\
  t' <> COGL_INVALID_HANDLE /\
  value r <> COGL_INVALID_HANDLE /\
  value r <> t' /\
  ~ In (value r) mats /\
  In (Ev (Cogl_material_copy t') (value r)) (calls r) /\
  (src <> COGL_INVALID_HANDLE ->
   layer (world (after r)) (value r) 0 = Some src) /\
  (src = COGL_INVALID_HANDLE ->
   layer (world (after r)) (value r) 0 = layer (world (after r)) t' 0).
Proof.
  intros (Hm & Hnone & Hsome) r t'. subst r t'.
  rewrite material_unfold. unfold template_invariant.
  destruct (is_null (texture_material_template (statics p))) eqn:Et.
  - apply is_null_true in Et.
    assert (Hmats : mats = []).
    { destruct mats as [|m mats]; [reflexivity|].
      destruct (Hm m (or_introl eq_refl)) as (_ & _ & Hc). contradiction. }
    subst mats.
    destruct (build_spec p) as (Hv & Hlive & Hone & d & Hd & Hin).
    set (q := after (build_template p)) in *.
    destruct (copy_spec src q [] Hlive) as
      (Hs & Hmv & Hmt & _ & Hml & Htl & _ & Hty & Hnew & Hcopy & Hsrc & Hno).
    { intros m []. }
    cbn [value after calls fst snd app].
    fold (value (copy_template src q)). fold (after (copy_template src q)).
    fold (calls (copy_template src q)). fold (calls (build_template p)).
    rewrite !Hs.
    split; [split; [|split] | repeat split]; auto.
    + intros m [<-|[]]. auto.
    + contradiction.
    + intros _. split; [|split; [exact Htl|]].
      * rewrite !filter_app, Hnew, app_nil_r, (Hnone Et). exact Hone.
      * exists d. split; [now rewrite Hty|].
        apply in_or_app. right. apply in_or_app. now left.
    + intros Hc. rewrite Et in Hc. contradiction.
    + apply in_or_app. now right.
    + intros Hsrc'. rewrite Hty. now apply Hno.
  - assert (Hne : texture_material_template (statics p) <> COGL_INVALID_HANDLE).
    { intros Hc. unfold is_null in Et. apply N.eqb_neq in Et. contradiction. }
    destruct (Hsome Hne) as (Hone & Hlive & d & Hd & Hin).
    destruct (copy_spec src p mats Hlive) as
      (Hs & Hmv & Hmt & Hmm & Hml & Htl & Hmsl & Hty & Hnew & Hcopy
       & Hsrc & Hno).
    { intros m Hin'. apply (Hm m Hin'). }
    rewrite !Hs.
    split; [split; [|split] | repeat split]; auto.
    + intros m [Hin'|[<-|[]]]%in_app_or; auto.
      split; [now apply Hmsl | apply (Hm m Hin')].
    + contradiction.
    + intros _. split; [|split; [exact Htl|]].
      * rewrite filter_app, Hnew, app_nil_r. exact Hone.
      * exists d. split; [now rewrite Hty|]. apply in_or_app. now left.
    + intros Hsrc'. rewrite Hty. now apply Hno.
Qed.

Lemma materials_of_cons (o : op) (x : outcome) (l : list op)
    (xs : list outcome) :
  materials_of (o :: l) (x :: xs) = materials_of [o] [x] ++ materials_of l xs.
Proof. destruct o, x; reflexivity. Qed.

Lemma op_keeps_template (o : op) (p : process) (history : trace)
    (mats : list CoglHandle) :
  template_invariant p history mats ->
  template_invariant (after (run_op cfg o p))
    (history ++ calls (run_op cfg o p))
    (mats ++ materials_of [o] [value (run_op cfg o p)]).
Proof.
  intros Hinv.
  destruct o as [r g bl a flags | src | | wd ht | e].
  2: { destruct (material_step src p history mats Hinv) as (Hstep & _).
       cbn [run_op]. cbn. rewrite app_nil_r. exact Hstep. }
  all: replace (materials_of _ _) with (@nil CoglHandle) by reflexivity;
    rewrite app_nil_r; apply other_op_keeps_template;
    [intros src; discriminate | exact Hinv].
Qed.

Lemma run_keeps_template (l : list op) (p : process) (history : trace)
    (mats : list CoglHandle) :
  template_invariant p history mats ->
  template_invariant (after (run_ops cfg l p))
    (history ++ calls (run_ops cfg l p))
    (mats ++ materials_of l (value (run_ops cfg l p))).
Proof.
  revert p history mats.
  induction l as [|o l IH]; intros p history mats Hinv.
  - cbn. now rewrite !app_nil_r.
  - apply op_keeps_template with (o := o) in Hinv.
    apply IH in Hinv.
    cbn [run_ops]. cbn [bind ret Monad_M value after calls fst snd].
    rewrite materials_of_cons, app_nil_r, !app_assoc.
    exact Hinv.
Qed.

Lemma start_invariant (w0 : W) : template_invariant (process_start w0) [] [].
Proof.
  split; [intros m [] | split; [reflexivity|]].
  intros Hc. now elim Hc.
Qed.

(** C5.  Assume Cogl keeps its side ([CoglContract]).  In a process that
    has run any operations of the module since its start, a call to
    [meta_create_texture_material]: finds or builds the template, so that
    over the whole life of the process [cogl_material_new] was called at
    most once before the call and exactly once up to its end, and a
    template that existed stays the one it was; returns a valid handle
    that is the answer to [cogl_material_copy] on the template, is not the
    template and is none of the materials returned earlier; and leaves at
    layer 0 of the returned material the source texture if one was given,
    and otherwise the texture at layer 0 of the template, which the white
    1x1 constructor call returned. *)
Theorem material_from_shared_template
    (w0 : W) (l : list op) (src : CoglHandle) :
  let start := run_ops cfg l (process_start w0) in
  let r := meta_create_texture_material src (after start) in
  let t := texture_material_template (statics (after r)) in
  (List.length (filter is_material_new (calls start)) <= 1)%nat /\
  List.length (filter is_material_new (calls start ++ calls r)) = 1%nat /\
  (texture_material_template (statics (after start)) = COGL_INVALID_HANDLE \/
   texture_material_template (statics (after start)) = t) /\
  t <> COGL_INVALID_HANDLE /\
  value r <> COGL_INVALID_HANDLE /\
  value r <> t /\
  ~ In (value r) (materials_of l (value start)) /\
  In (Ev (Cogl_material_copy t) (value r)) (calls r) /\
  exists d,
    layer (world (after r)) t 0 = Some d /\
    In (Ev white_texture_call d) (calls start ++ calls r) /\
    layer (world (after r)) (value r) 0
    = Some (if is_null src then d else src).
Proof.
  intros start r t.
  pose proof (run_keeps_template l (process_start w0) [] []
                (start_invariant w0)) as Hinv.
  cbn [app] in Hinv. fold start in Hinv.
  pose proof Hinv as (_ & Hnone & Hsome).
  destruct (material_step src (after start) _ _ Hinv) as
    ((_ & _ & Hafter) & Hsame & Hv & Hmv & Hmt & Hmm & Hcopy & Hsrc & Hno).
  fold r in Hafter, Hsame, Hv, Hmv, Hmt, Hmm, Hcopy, Hsrc, Hno.
  fold t in Hafter, Hsame, Hv, Hmv, Hmt, Hcopy, Hno.
  destruct (Hafter Hv) as (Hone & _ & d & Hd & Hin).
  repeat split; auto.
  - destruct (N.eq_dec (texture_material_template (statics (after start)))
                COGL_INVALID_HANDLE) as [E|E].
    + rewrite (Hnone E). cbn. lia.
    + destruct (Hsome E) as (-> & _). lia.
  - destruct (N.eq_dec (texture_material_template (statics (after start)))
                COGL_INVALID_HANDLE) as [E|E]; [now left | right].
    symmetry. now apply Hsame.
  - exists d. repeat split; auto.
    destruct (is_null src) eqn:Es.
    + apply is_null_true in Es. rewrite (Hno Es). exact Hd.
    + apply Hsrc. intros ->. discriminate.
Qed.

End Materials.

(** * Runs of the module: what holds beyond a single call *)

Section Runs.

Context `{World} `{CoglColorAPI}.
Variable cfg : build.

Ltac name_answer :=
  match goal with
  | |- context [respond ?c ?w] =>
      let ans := fresh "ans" in
      let w' := fresh "w" in
      destruct (respond c w) as [ans w']; cbn [fst snd];
      let T := type of ans in
      let T' := eval cbn in T in
      lazymatch T' with
      | (_ * _)%type => destruct ans; cbn [fst snd]
      | _ => idtac
      end
  end.

Ltac fold_results :=
  repeat match goal with
    | |- context [snd (report_error ?s ?e ?p)] =>
        change (snd (report_error s e p)) with (calls (report_error s e p))
    end.

(** The shape of every entry point: its queries, then one constructor
    call, then the handling of the error that call stored; the statics are
    those the queries left. *)
Lemma entry_shape (e : entry) (p : process) :
  exists ev,
    event_call ev = chosen_constructor cfg e p /\
    calls (run_entry cfg e p)
    = entry_queries e p ++ ev :: error_report (log_prefix e) (error_of ev) /\
    handle_of ev = Some (value (run_entry cfg e p)) /\
    statics (after (run_entry cfg e p)) = statics (entry_probe e p).
Proof.
  destruct e as [w h flags format ifmt rs data
                | filename flags ifmt | w h flags ifmt];
    cbn [run_entry log_prefix entry_queries entry_probe chosen_constructor
         capability_seen];
    unfold meta_cogl_texture_new_from_data_wrapper,
      meta_cogl_texture_new_from_file_wrapper,
      meta_cogl_texture_new_with_size_wrapper; cbn;
    try set (r0 := clamp_sizes w h p);
    match goal with
    | |- context [hardware_supports_npot_sizes ?q] =>
        set (r1 := hardware_supports_npot_sizes q)
    end;
    destruct (value r1) eqn:E1; cbn;
    name_answer;
    unfold calls, value, after in *; cbn [fst snd]; fold_results;
    rewrite ?report_calls, ?app_nil_r, ?report_statics; unfold COGL_TEXTURE;
    rewrite <- ?app_assoc;
    match goal with
    | |- exists ev, _ /\ _ ++ _ ++ ?x :: _ = _ /\ _ => exists x
    | |- exists ev, _ /\ _ ++ ?x :: _ = _ /\ _ => exists x
    end;
    cbn [error_of snd fst error_report event_call handle_of];
    repeat split; rewrite <- ?app_assoc; try reflexivity;
    match goal with
    | |- context [report_error _ ?o _] => destruct o
    end; reflexivity.
Qed.

Ltac step_any :=
  repeat lazymatch goal with
    | |- preserves _ _ (ret _) => apply preserves_ret
    | |- preserves _ _ (load _) => apply preserves_load
    | |- preserves _ _ (bind _ _) => apply preserves_bind; [| intro]
    | |- preserves _ _ (if _ then _ else _) => apply preserves_if
    | |- preserves _ _ (report_error _ _) => apply preserves_report; intro
    | |- preserves (on_statics _) _ (invoke _) =>
        apply on_statics_invoke; intro; reflexivity
    | |- preserves (on_statics _) _ (store _) =>
        apply preserves_store; unfold on_statics; cbn; intros ? ?;
        assumption
    end.

Lemma forallb_weaken {A} (f g : A -> bool) (l : list A) :
  (forall x, f x = true -> g x = true) ->
  forallb f l = true -> forallb g l = true.
Proof.
  intros Hfg. induction l as [|x l IH]; cbn; [reflexivity|].
  intros [Hx Hl]%andb_prop. now rewrite (Hfg x Hx), IH.
Qed.

Lemma forallb_filter_nil {A} (f g : A -> bool) (l : list A) :
  (forall x, f x = true -> g x = false) ->
  forallb f l = true -> filter g l = [].
Proof.
  intros Hfg. induction l as [|x l IH]; cbn; [reflexivity|].
  intros [Hx Hl]%andb_prop. now rewrite (Hfg x Hx), IH.
Qed.

(** The operations other than the entry points make helper calls only. *)
Lemma plain_op_events (J : globals -> Prop) (o : op) :
  is_texture_op o = false ->
  (forall g c, J g -> J (set_cogl_context c g)) ->
  (forall g b, J g -> J (set_supports_npot b g)) ->
  (forall g z, J g -> J (set_screen_width z g)) ->
  (forall g z, J g -> J (set_screen_height z g)) ->
  (forall g t, J g -> J (set_texture_material_template t g)) ->
  preserves (on_statics J) helper_event (run_op cfg o).
Proof.
  intros Ho J1 J2 J3 J4 J5.
  assert (Hst : forall u, (forall g, J g -> J (u g)) ->
                preserves (on_statics J) helper_event (store u)).
  { intros u Hu. apply preserves_store. intros p Hp. apply Hu, Hp. }
  destruct o as [r g bl a flags | src | | wd ht | e]; [ | | | | discriminate];
    cbn [run_op];
    unfold meta_create_texture_material, meta_create_color_texture_4ub,
      hardware_supports_npot_sizes, clamp_sizes;
    repeat lazymatch goal with
      | |- preserves _ _ (ret _) => apply preserves_ret
      | |- preserves _ _ (load _) => apply preserves_load
      | |- preserves _ _ (bind _ _) => apply preserves_bind; [| intro]
      | |- preserves _ _ (if _ then _ else _) => apply preserves_if
      | |- preserves _ _ (invoke _) =>
          apply on_statics_invoke; intro; reflexivity
      | |- preserves _ _ (store _) => apply Hst; intros; auto
      end.
Qed.

Lemma plain_op_calls (o : op) (p : process) :
  is_texture_op o = false ->
  forallb helper_event (calls (run_op cfg o p)) = true.
Proof.
  intros Ho.
  apply (plain_op_events anything o Ho); try (intros; exact I).
Qed.

(** ** X1: the file variant on the new path *)

(** X1.  When the capability query made inside the call answers that
    non-power-of-two sizes are supported, the from-file entry point gives
    the same handle, leaves the same process and makes the same calls with
    the same answers whatever the caller passes as flags and as internal
    format. *)
Theorem from_file_npot_ignores_flags_and_internal_format
    (p : process) (filename : string) (flags1 flags2 : CoglTextureFlags)
    (internal_format1 internal_format2 : CoglPixelFormat) :
  value (hardware_supports_npot_sizes p) = true ->
  meta_cogl_texture_new_from_file_wrapper cfg filename flags1
    internal_format1 p
  = meta_cogl_texture_new_from_file_wrapper cfg filename flags2
      internal_format2 p.
Proof.
  intros Hnpot. unfold value in Hnpot.
  unfold meta_cogl_texture_new_from_file_wrapper. cbn.
  unfold value, after. rewrite Hnpot. reflexivity.
Qed.

(** ** X2 and X3: calling a helper again *)

Lemma MIN_le_l (a b : Z) : MIN a b <= a.
Proof. rewrite MIN_is_min. lia. Qed.

Lemma MIN_le_r (a b : Z) : MIN a b <= b.
Proof. rewrite MIN_is_min. lia. Qed.

Lemma MIN_idem (a b : Z) : MIN (MIN a b) b = MIN a b.
Proof. rewrite !MIN_is_min. lia. Qed.

Lemma MIN_mono (a a' b : Z) : a <= a' -> MIN a b <= MIN a' b.
Proof. rewrite !MIN_is_min. lia. Qed.

Lemma clamp_after_any (p : process) (w h w' h' : gint) :
  after (clamp_sizes w h p) = after (clamp_sizes w' h' p).
Proof.
  unfold clamp_sizes. cbn.
  destruct (screen_width (statics p) =? 0); reflexivity.
Qed.

(** X2.  In every state and whatever the screen reports, [clamp_sizes]
    never gives back more than it was given, in either dimension, and a
    larger request never gets a smaller answer.  When the call leaves the
    cache filled (a cached width other than 0), clamping its result again
    changes nothing: the same size comes back, the process is unchanged
    and no call is made. *)
Theorem clamp_never_enlarges (p : process) (width height : gint) :
  let r := clamp_sizes width height p in
  fst (value r) <= width /\
  snd (value r) <= height /\
  (forall width' height',
     width <= width' -> height <= height' ->
     fst (value r) <= fst (value (clamp_sizes width' height' p)) /\
     snd (value r) <= snd (value (clamp_sizes width' height' p))) /\
  (screen_width (statics (after r)) <> 0 ->
   clamp_sizes (fst (value r)) (snd (value r)) (after r)
   = (value r, after r, [])).
Proof.
  intros r. subst r. rewrite clamp_value. cbn [fst snd].
  split; [apply MIN_le_l | split; [apply MIN_le_l | split]].
  - intros width' height' Hw Hh. rewrite (clamp_value p width' height').
    cbn [fst snd].
    rewrite (clamp_after_any p width' height' width height).
    split; now apply MIN_mono.
  - intros Hfilled. rewrite clamp_cached by exact Hfilled.
    now rewrite !MIN_idem.
Qed.

(** X3.  Whether or not the capability cache was filled before, a call to
    [hardware_supports_npot_sizes] that leaves a context other than [NULL]
    in the cache makes the next call silent: it gives the same answer,
    leaves the process as it is and calls nobody. *)
Theorem capability_query_repeats (p : process) :
  let r := hardware_supports_npot_sizes p in
  cogl_context (statics (after r)) <> NULL ->
  hardware_supports_npot_sizes (after r) = (value r, after r, []).
Proof.
  intros r Hctx. rewrite npot_cached by exact Hctx.
  f_equal. f_equal. subst r.
  unfold hardware_supports_npot_sizes. cbn.
  destruct (is_null (cogl_context (statics p))); reflexivity.
Qed.

(** ** X4, X5 and X6: materials and textures keep apart *)

(** X4.  [meta_create_texture_material] never looks at or touches the
    capability and screen-size caches: it leaves the cached context,
    capability, width and height as they are, makes no backend or screen
    query and calls no 2D constructor; and in two processes with the same
    world and the same template static it returns the same handle, makes
    the same calls and leaves the same world, whatever the caches hold. *)
Theorem material_helper_leaves_caches (src : CoglHandle) (p : process) :
  let r := meta_create_texture_material src p in
  cogl_context (statics (after r)) = cogl_context (statics p) /\
  supports_npot (statics (after r)) = supports_npot (statics p) /\
  screen_width (statics (after r)) = screen_width (statics p) /\
  screen_height (statics (after r)) = screen_height (statics p) /\
  existsb is_backend_query (calls r) = false /\
  existsb is_screen_query (calls r) = false /\
  forallb not_2d (calls r) = true /\
  forall g : globals,
    texture_material_template g = texture_material_template (statics p) ->
    let r' := meta_create_texture_material src (with_statics g p) in
    value r' = value r /\ calls r' = calls r /\
    world (after r') = world (after r).
Proof.
  intros r. subst r.
  unfold meta_create_texture_material, meta_create_color_texture_4ub.
  cbn.
  destruct (is_null (texture_material_template (statics p))) eqn:Et;
    destruct (is_null src) eqn:Es; cbn;
    repeat (split; [reflexivity|]);
    intros g Hg; rewrite Hg, Et; cbn; rewrite ?Hg;
    repeat split; reflexivity.
Qed.

Lemma op_leaves_template (t : CoglHandle) (o : op) :
  is_material_op o = false ->
  preserves (on_statics (fun g => texture_material_template g = t)) benign
    (run_op cfg o).
Proof.
  intros Ho.
  destruct o as [r g bl a flags | src | | wd ht | [ | | ]];
    [ | discriminate | .. ];
    cbn [run_op run_entry];
    unfold meta_create_color_texture_4ub,
      meta_cogl_texture_new_from_data_wrapper,
      meta_cogl_texture_new_from_file_wrapper,
      meta_cogl_texture_new_with_size_wrapper,
      hardware_supports_npot_sizes, clamp_sizes;
    step_any.
Qed.

Lemma preserves_run_where (I : process -> Prop) (ok : event -> bool)
    (allowed : op -> bool) (l : list op) :
  (forall o, allowed o = true -> preserves I ok (run_op cfg o)) ->
  forallb allowed l = true ->
  preserves I ok (run_ops cfg l).
Proof.
  intros Hop. induction l as [|o l IH]; cbn [run_ops forallb].
  - intros _. apply preserves_ret.
  - intros [Ho Hl]%andb_prop.
    apply preserves_bind; [now apply Hop | intro].
    apply preserves_bind; [now apply IH | intro]. apply preserves_ret.
Qed.

(** X5.  A run that does not call [meta_create_texture_material], however
    many textures it creates and queries it makes, leaves the template
    static as it is and makes no material call at all: no
    [cogl_material_new], [cogl_material_copy], [cogl_material_set_layer]
    or [cogl_handle_unref]. *)
Theorem textures_leave_the_template (l : list op) (p : process) :
  forallb (fun o => negb (is_material_op o)) l = true ->
  texture_material_template (statics (after (run_ops cfg l p)))
  = texture_material_template (statics p) /\
  forallb benign (calls (run_ops cfg l p)) = true.
Proof.
  intros Hl.
  apply (preserves_run_where
           (on_statics (fun g => texture_material_template g
                                 = texture_material_template (statics p)))
           benign (fun o => negb (is_material_op o)) l); [|exact Hl|reflexivity].
  intros o Ho. apply op_leaves_template. now apply negb_true_iff.
Qed.

Lemma op_uses_template (t : CoglHandle) (o : op) :
  preserves (on_statics (template_is t)) (template_in_use t) (run_op cfg o).
Proof.
  destruct o as [r g bl a flags | src | | wd ht | [ | | ]].
  2: { intros p (Ht & Hne).
       unfold run_op. cbn [bind ret Monad_M value after calls fst snd].
       rewrite material_unfold, Ht, (is_null_false _ Hne).
       unfold copy_template, on_statics, template_is. cbn. rewrite Ht.
       destruct (is_null src); cbn; rewrite N.eqb_refl; auto. }
  all: cbn [run_op run_entry];
    unfold meta_create_color_texture_4ub,
      meta_cogl_texture_new_from_data_wrapper,
      meta_cogl_texture_new_from_file_wrapper,
      meta_cogl_texture_new_with_size_wrapper,
      hardware_supports_npot_sizes, clamp_sizes;
    step_any.
Qed.

(** X6.  Once the template static holds a valid handle, no run of the
    module changes it, makes a material from scratch or drops a reference,
    and every [cogl_material_copy] in the run copies that template.  This
    needs nothing of Cogl. *)
Theorem template_is_sticky (l : list op) (p : process) :
  texture_material_template (statics p) <> COGL_INVALID_HANDLE ->
  texture_material_template (statics (after (run_ops cfg l p)))
  = texture_material_template (statics p) /\
  forallb (template_in_use (texture_material_template (statics p)))
    (calls (run_ops cfg l p)) = true.
Proof.
  intros Hne.
  destruct (preserves_run cfg
              (on_statics (template_is (texture_material_template (statics p))))
              (template_in_use (texture_material_template (statics p))) l
              (op_uses_template _) p) as ((Ht & _) & Hcalls).
  { now split. }
  now split.
Qed.

(** ** X7: references *)

Lemma benign_no_unref (t : trace) :
  forallb benign t = true ->
  filter is_unref t = [] /\ filter is_material_new t = [].
Proof.
  intros Hb. split; apply (forallb_filter_nil benign); try exact Hb;
    intros [c r]; destruct c; cbn; congruence.
Qed.

Lemma filter_nil_not_in {A} (f : A -> bool) (l : list A) (x : A) :
  filter f l = [] -> f x = true -> ~ In x l.
Proof.
  intros Hnil Hx Hin.
  assert (Hf : In x (filter f l)) by (apply filter_In; now split).
  rewrite Hnil in Hf. exact Hf.
Qed.

Lemma op_releases_the_dummy (o : op) (p : process) :
  (forall h u, In (Ev (Cogl_handle_unref h) u) (calls (run_op cfg o p)) ->
               In (Ev white_texture_call h) (calls (run_op cfg o p))) /\
  List.length (filter is_unref (calls (run_op cfg o p)))
  = List.length (filter is_material_new (calls (run_op cfg o p))).
Proof.
  destruct (is_material_op o) eqn:Ho.
  - destruct o as [ | src | | | ]; try discriminate.
    unfold run_op. cbn [bind ret Monad_M value after calls fst snd].
    rewrite app_nil_r, material_unfold.
    destruct (is_null (texture_material_template (statics p))); cbn [snd].
    + unfold build_template, copy_template, meta_create_color_texture_4ub.
      cbn. destruct (is_null src); cbn; (split; [|reflexivity]);
        intros h u Hin;
        repeat (destruct Hin as [Hin|Hin]; [try discriminate Hin|]);
        try contradiction;
        injection Hin as <-; left; reflexivity.
    + unfold copy_template. cbn.
      destruct (is_null src); cbn; (split; [|reflexivity]);
        intros h u Hin;
        repeat (destruct Hin as [Hin|Hin]; [try discriminate Hin|]);
        contradiction.
  - destruct (op_leaves_template (texture_material_template (statics p)) o Ho p)
      as (_ & Hb); [reflexivity|].
    destruct (benign_no_unref _ Hb) as (Hu & Hn).
    rewrite Hu, Hn. split; [|reflexivity].
    intros h u Hin. exfalso.
    now apply (filter_nil_not_in is_unref _ _ Hu) in Hin.
Qed.

(** X7.  In every run of the module from any state, every
    [cogl_handle_unref] is on a handle that the white 1x1 constructor call
    of the same run returned, the dummy texture of the template, and there
    are as many of them as there are [cogl_material_new] calls.  So the
    module drops no reference to a texture it was given, to a material it
    returned or to its template. *)
Theorem only_the_dummy_is_released (l : list op) (p : process) :
  (forall h u, In (Ev (Cogl_handle_unref h) u) (calls (run_ops cfg l p)) ->
               In (Ev white_texture_call h) (calls (run_ops cfg l p))) /\
  List.length (filter is_unref (calls (run_ops cfg l p)))
  = List.length (filter is_material_new (calls (run_ops cfg l p))).
Proof.
  revert p. induction l as [|o l IH]; intros p.
  - cbn. split; [intros h u [] | reflexivity].
  - cbn [run_ops]. cbn [bind ret Monad_M value after calls fst snd].
    rewrite app_nil_r.
    destruct (op_releases_the_dummy o p) as (Ho & Eo).
    destruct (IH (after (run_op cfg o p))) as (Hl & El).
    unfold after, calls in *. split.
    + intros h u [Hin|Hin]%in_app_or; apply in_or_app; [left|right]; eauto.
    + rewrite !filter_app, !length_app. now rewrite Eo, El.
Qed.

(** ** X8: errors *)

Lemma quiet_trace (t : trace) :
  forallb no_error_traffic t = true ->
  errors_stored t = [] /\ errors_freed t = [] /\ filter is_verbose t = [].
Proof.
  induction t as [|[c r] t IH]; cbn [forallb]; [now repeat split|].
  intros [Hx Ht]%andb_prop. destruct (IH Ht) as (Es & Ef & Ev').
  unfold errors_stored, errors_freed in *. cbn [flat_map filter].
  rewrite Es, Ef, Ev'. unfold no_error_traffic in Hx.
  destruct (error_of (Ev c r)); [discriminate|].
  destruct c; cbn in Hx |- *; try discriminate; now repeat split.
Qed.

Lemma helper_no_error_traffic (e : event) :
  helper_event e = true -> no_error_traffic e = true.
Proof. destruct e as [[] r]; cbn; congruence. Qed.

Lemma query_no_error_traffic (e : event) :
  (is_backend_query e || is_screen_query e)%bool = true ->
  no_error_traffic e = true.
Proof. destruct e as [[] r]; cbn; congruence. Qed.

Lemma entry_queries_only (ok : event -> bool) (e : entry) (p : process) :
  (forall x, (is_backend_query x || is_screen_query x)%bool = true ->
             ok x = true) ->
  forallb ok (entry_queries e p) = true.
Proof.
  intros Hok.
  destruct e as [w h ? ? ? ? ? | ? ? ? | w h ? ?]; cbn [entry_queries];
    rewrite ?forallb_app;
    rewrite ?(proj2 (queries_only ok p Hok));
    rewrite ?(proj1 (queries_only ok _ Hok)); reflexivity.
Qed.

Lemma op_frees_what_was_stored (o : op) (p : process) :
  errors_freed (calls (run_op cfg o p))
  = errors_stored (calls (run_op cfg o p)) /\
  List.length (filter is_verbose (calls (run_op cfg o p)))
  = List.length (errors_stored (calls (run_op cfg o p))).
Proof.
  destruct (is_texture_op o) eqn:Ho.
  - destruct o as [ | | | | e]; try discriminate.
    unfold run_op. cbn [bind ret Monad_M value after calls fst snd].
    rewrite app_nil_r.
    destruct (entry_shape e p) as (ev & Hcall & Hcalls & _ & _).
    unfold calls in *. rewrite Hcalls.
    destruct (quiet_trace _ (entry_queries_only no_error_traffic e p
                               query_no_error_traffic)) as (Es & Ef & Ev').
    unfold errors_stored, errors_freed in *.
    rewrite !flat_map_app, filter_app, Es, Ef, Ev'. cbn [app flat_map filter].
    destruct ev as [c a]. cbn [event_call] in Hcall.
    destruct e; cbn [chosen_constructor] in Hcall;
      destruct (capability_seen _ p); subst c; cbn;
      try (destruct (snd a)); cbn; now split.
  - pose proof (plain_op_calls o p Ho) as Hh.
    apply (forallb_weaken _ _ _ helper_no_error_traffic) in Hh.
    destruct (quiet_trace _ Hh) as (Es & Ef & Ev').
    now rewrite Es, Ef, Ev'.
Qed.

(** X8.  In every run of the module from any state, the errors passed to
    [cogl_error_free] are, in the same order, exactly the errors the
    constructors stored, each once, and the log lines given to
    [meta_verbose] are as many as those errors: no error is kept, freed
    twice or left unreported. *)
Theorem errors_freed_exactly_once (l : list op) (p : process) :
  errors_freed (calls (run_ops cfg l p))
  = errors_stored (calls (run_ops cfg l p)) /\
  List.length (filter is_verbose (calls (run_ops cfg l p)))
  = List.length (errors_stored (calls (run_ops cfg l p))).
Proof.
  revert p. induction l as [|o l IH]; intros p.
  - cbn. now split.
  - cbn [run_ops]. cbn [bind ret Monad_M value after calls fst snd].
    rewrite app_nil_r.
    destruct (op_frees_what_was_stored o p) as (Eo & No).
    destruct (IH (after (run_op cfg o p))) as (El & Nl).
    unfold after, calls, errors_stored, errors_freed in *.
    rewrite !flat_map_app, filter_app, !length_app.
    now rewrite Eo, El, No, Nl.
Qed.

(** ** X9, X10 and X11: the process with its caches filled *)

Lemma seen_cached (e : entry) (p : process) :
  cogl_context (statics p) <> NULL ->
  capability_seen e p = supports_npot (statics p) /\
  cogl_context (statics (entry_probe e p)) = cogl_context (statics p).
Proof.
  intros Hctx.
  assert (Hclamp : forall w h,
            cogl_context (statics (after (clamp_sizes w h p)))
            = cogl_context (statics p) /\
            supports_npot (statics (after (clamp_sizes w h p)))
            = supports_npot (statics p)).
  { intros w h.
    destruct (capability_kept_by_clamp (cogl_context (statics p))
                (supports_npot (statics p)) w h p) as ((Ec & Eb & _) & _);
      [now repeat split | now split]. }
  destruct e as [w h ? ? ? ? ? | ? ? ? | w h ? ?];
    cbn [capability_seen entry_probe];
    try (destruct (Hclamp w h) as (Ec & Eb));
    rewrite npot_cached by congruence; cbn; auto.
Qed.

Lemma report_allowed (ok : event -> bool) (prefix : string)
    (error : option CoglError) :
  (forall x, is_error_handling x = true -> ok x = true) ->
  forallb ok (error_report prefix error) = true.
Proof.
  intros Hok. destruct error as [x|]; cbn; [|reflexivity].
  now rewrite !Hok.
Qed.

Lemma entry_calls_allowed (ok : event -> bool) (e : entry) (p : process) :
  (forall x, (is_backend_query x || is_screen_query x)%bool = true ->
             ok x = true) ->
  (forall x, is_error_handling x = true -> ok x = true) ->
  (forall ev, event_call ev = chosen_constructor cfg e p -> ok ev = true) ->
  forallb ok (calls (run_entry cfg e p)) = true.
Proof.
  intros Hq Hr Hc.
  destruct (entry_shape e p) as (ev & Hcall & Hcalls & _ & _).
  rewrite Hcalls, forallb_app. cbn [forallb].
  now rewrite (entry_queries_only ok e p Hq), (Hc ev Hcall),
    (report_allowed ok _ _ Hr).
Qed.

Lemma texture_op_calls (e : entry) (p : process) :
  calls (run_op cfg (Texture_new e) p) = calls (run_entry cfg e p).
Proof.
  unfold run_op. cbn [bind ret Monad_M value after calls fst snd].
  apply app_nil_r.
Qed.

Lemma op_dispatch_legacy (c : CoglContext) (o : op) :
  preserves (on_statics (capability_is c false)) not_2d (run_op cfg o).
Proof.
  intros p Hp. split; [now apply capability_kept_by_op|].
  destruct Hp as (Hc & Hb & Hn).
  destruct (is_texture_op o) eqn:Ho.
  - destruct o as [ | | | | e]; try discriminate.
    rewrite texture_op_calls. apply entry_calls_allowed.
    + intros [[] r]; cbn; congruence.
    + intros [[] r]; cbn; congruence.
    + intros [k a] Hk. cbn [event_call] in Hk.
      destruct (seen_cached e p) as (Hseen & _); [congruence|].
      destruct e; cbn [chosen_constructor] in Hk;
        rewrite Hseen, Hb in Hk; subst k; reflexivity.
  - apply (forallb_weaken helper_event); [|now apply plain_op_calls].
    intros [[] r]; cbn; congruence.
Qed.

Lemma op_dispatch_2d (c : CoglContext) (o : op) :
  is_texture_op o = true ->
  preserves (on_statics (capability_is c true)) (only_2d_on c) (run_op cfg o).
Proof.
  intros Ho p Hp. split; [now apply capability_kept_by_op|].
  destruct Hp as (Hc & Hb & Hn).
  destruct o as [ | | | | e]; try discriminate.
  rewrite texture_op_calls. apply entry_calls_allowed.
  - intros [[] r]; cbn; congruence.
  - intros [[] r]; cbn; congruence.
  - intros [k a] Hk. cbn [event_call] in Hk.
    destruct (seen_cached e p) as (Hseen & Hctx); [congruence|].
    destruct e; cbn [chosen_constructor] in Hk;
      rewrite Hseen, Hb, Hctx, Hc in Hk; subst k; cbn;
      apply N.eqb_refl.
Qed.

(** X9.  The dispatch follows the cache, not the hardware.  Once the
    capability cache is filled with "not supported", no run of the module
    ever calls a 2D constructor; once it is filled with "supported", a run
    of texture-creation entry points calls no legacy constructor, and gives
    every 2D constructor the cached context, whatever Cogl would answer
    if it were asked again. *)
Theorem dispatch_is_sticky (l : list op) (p : process) :
  cogl_context (statics p) <> NULL ->
  (supports_npot (statics p) = false ->
   forallb not_2d (calls (run_ops cfg l p)) = true) /\
  (supports_npot (statics p) = true ->
   forallb is_texture_op l = true ->
   forallb (only_2d_on (cogl_context (statics p))) (calls (run_ops cfg l p))
   = true).
Proof.
  intros Hctx. split.
  - intros Hb.
    apply (preserves_run cfg
             (on_statics (capability_is (cogl_context (statics p)) false))
             not_2d l (op_dispatch_legacy _) p).
    now repeat split.
  - intros Hb Hl.
    apply (preserves_run_where
             (on_statics (capability_is (cogl_context (statics p)) true))
             (only_2d_on (cogl_context (statics p))) is_texture_op l
             (op_dispatch_2d _) Hl p).
    now repeat split.
Qed.

(** X10.  With both caches filled, an entry point asks nobody anything: it
    makes its one constructor call, legacy or 2D as the cached capability
    says, handles the error that call stored, returns the call's handle
    and leaves every static as it was. *)
Theorem warm_entry_calls_only_its_constructor (e : entry) (p : process) :
  cogl_context (statics p) <> NULL ->
  screen_width (statics p) <> 0 ->
  exists ev,
    calls (run_entry cfg e p)
    = ev :: error_report (log_prefix e) (error_of ev) /\
    constructor_of (event_call ev)
    = Some (if supports_npot (statics p) then Texture2D else Legacy) /\
    handle_of ev = Some (value (run_entry cfg e p)) /\
    statics (after (run_entry cfg e p)) = statics p.
Proof.
  intros Hctx Hw.
  destruct (entry_shape e p) as (ev & Hcall & Hcalls & Hhandle & Hstatics).
  destruct (seen_cached e p Hctx) as (Hseen & _).
  exists ev. split; [|split; [|split; [exact Hhandle|]]].
  - rewrite Hcalls.
    destruct e as [w h ? ? ? ? ? | ? ? ? | w h ? ?]; cbn [entry_queries];
      rewrite ?clamp_cached by exact Hw; cbn [after calls fst snd];
      rewrite npot_cached by exact Hctx; reflexivity.
  - rewrite Hcall.
    destruct e; cbn [chosen_constructor]; rewrite Hseen;
      destruct (supports_npot (statics p)); reflexivity.
  - rewrite Hstatics.
    destruct e as [w h ? ? ? ? ? | ? ? ? | w h ? ?]; cbn [entry_probe];
      rewrite ?clamp_cached by exact Hw; cbn [after calls fst snd];
      rewrite npot_cached by exact Hctx; reflexivity.
Qed.

Lemma helper_size_within (w h : Z) (e : event) :
  1 <= w -> 1 <= h -> helper_event e = true -> size_within w h e = true.
Proof.
  intros Hw Hh. destruct e as [[] r]; cbn; try congruence.
  intros [E1 E2]%andb_prop.
  apply Z.eqb_eq in E1, E2. subst.
  apply andb_true_intro. split; now apply Z.leb_le.
Qed.

Lemma op_sizes_within (Wd Hd : gint) (o : op) :
  0 < Wd -> 0 < Hd -> in_gint (2 * Wd) -> in_gint (2 * Hd) ->
  preserves (on_statics (screen_is Wd Hd)) (size_within (2 * Wd) (2 * Hd))
    (run_op cfg o).
Proof.
  intros HW HH GW GH p Hp. split; [now apply screen_kept_by_op|].
  destruct Hp as (Ew & Eh & Hn).
  destruct (is_texture_op o) eqn:Ho.
  - destruct o as [ | | | | e]; try discriminate.
    rewrite texture_op_calls. apply entry_calls_allowed.
    + intros [[] r]; cbn; congruence.
    + intros [[] r]; cbn; congruence.
    + intros [k a] Hk. cbn [event_call] in Hk.
      assert (Hsize : forall w h,
                fst (value (clamp_sizes w h p)) <= 2 * Wd /\
                snd (value (clamp_sizes w h p)) <= 2 * Hd).
      { intros w h. rewrite clamp_cached by congruence.
        cbn. rewrite Ew, Eh, !gint_double by assumption.
        split; apply MIN_le_r. }
      destruct e as [w h ? ? ? ? ? | ? ? ? | w h ? ?];
        cbn [chosen_constructor] in Hk;
        destruct (capability_seen _ p); subst k; unfold size_within; cbn;
        try reflexivity;
        destruct (Hsize w h) as (Lw & Lh);
        apply andb_true_intro; split; now apply Z.leb_le.
  - apply (forallb_weaken helper_event); [|now apply plain_op_calls].
    intros e. apply helper_size_within; lia.
Qed.

(** X11.  With a positive screen size W x H in the cache, and 2*W and 2*H
    representable as [gint], no run of the module asks any constructor for
    a texture wider than 2*W or higher than 2*H, whatever sizes the
    callers request. *)
Theorem sizes_within_twice_the_screen (l : list op) (p : process) :
  0 < screen_width (statics p) ->
  0 < screen_height (statics p) ->
  in_gint (2 * screen_width (statics p)) ->
  in_gint (2 * screen_height (statics p)) ->
  forallb (size_within (2 * screen_width (statics p))
             (2 * screen_height (statics p)))
    (calls (run_ops cfg l p)) = true.
Proof.
  intros HW HH GW GH.
  apply (preserves_run cfg
           (on_statics (screen_is (screen_width (statics p))
                          (screen_height (statics p))))
           _ l (fun o => op_sizes_within _ _ o HW HH GW GH) p).
  repeat split; lia.
Qed.

(** ** X12: each collaborator is asked once *)

Lemma no_cache_query_filters (t : trace) :
  forallb no_cache_query t = true ->
  filter is_context_query t = [] /\ filter is_width_query t = [].
Proof.
  intros Ht. split; apply (forallb_filter_nil no_cache_query); try exact Ht;
    intros [[] r]; cbn; congruence.
Qed.

Lemma entry_tail_no_cache_query (e : entry) (p : process) (ev : event) :
  event_call ev = chosen_constructor cfg e p ->
  forallb no_cache_query (ev :: error_report (log_prefix e) (error_of ev))
  = true.
Proof.
  intros Hcall. cbn [forallb].
  rewrite (report_allowed no_cache_query).
  - destruct ev as [k a]. cbn [event_call] in Hcall.
    destruct e; cbn [chosen_constructor] in Hcall;
      destruct (capability_seen _ p); subst k; reflexivity.
  - intros [[] r]; cbn; congruence.
Qed.

Lemma query_asks_once (q : process) :
  contexts_valid (calls (hardware_supports_npot_sizes q)) ->
  filter is_width_query (calls (hardware_supports_npot_sizes q)) = [] /\
  screen_width (statics (after (hardware_supports_npot_sizes q)))
  = screen_width (statics q) /\
  ((filter is_context_query (calls (hardware_supports_npot_sizes q)) = [] /\
    cogl_context (statics (after (hardware_supports_npot_sizes q)))
    = cogl_context (statics q)) \/
   (List.length
      (filter is_context_query (calls (hardware_supports_npot_sizes q)))
    = 1%nat /\
    cogl_context (statics (after (hardware_supports_npot_sizes q))) <> NULL)).
Proof.
  unfold hardware_supports_npot_sizes. cbn.
  destruct (is_null (cogl_context (statics q))); cbn; intros Hvalid.
  - repeat split. right. split; [reflexivity|].
    unfold contexts_valid in Hvalid. cbn in Hvalid.
    rewrite andb_true_r in Hvalid. apply negb_true_iff in Hvalid.
    unfold is_null in Hvalid. now apply N.eqb_neq.
  - repeat split. left. now split.
Qed.

Lemma clamp_asks_once (w h : gint) (q : process) :
  widths_nonzero (calls (clamp_sizes w h q)) ->
  filter is_context_query (calls (clamp_sizes w h q)) = [] /\
  cogl_context (statics (after (clamp_sizes w h q)))
  = cogl_context (statics q) /\
  ((filter is_width_query (calls (clamp_sizes w h q)) = [] /\
    screen_width (statics (after (clamp_sizes w h q)))
    = screen_width (statics q)) \/
   (List.length (filter is_width_query (calls (clamp_sizes w h q))) = 1%nat /\
    screen_width (statics (after (clamp_sizes w h q))) <> 0)).
Proof.
  unfold clamp_sizes. cbn.
  destruct (screen_width (statics q) =? 0); cbn; intros Hvalid.
  - repeat split. right. split; [reflexivity|].
    unfold widths_nonzero in Hvalid. cbn in Hvalid.
    rewrite andb_true_r in Hvalid. apply negb_true_iff in Hvalid.
    now apply Z.eqb_neq.
  - repeat split. left. now split.
Qed.

Lemma valid_app_l (t1 t2 : trace) :
  contexts_valid (t1 ++ t2) -> contexts_valid t1.
Proof.
  unfold contexts_valid, widths_nonzero. rewrite forallb_app.
  now intros [Hl _]%andb_prop.
Qed.

Lemma valid_app_r (t1 t2 : trace) :
  contexts_valid (t1 ++ t2) -> contexts_valid t2.
Proof.
  unfold contexts_valid, widths_nonzero. rewrite forallb_app.
  now intros [_ Hr]%andb_prop.
Qed.

Lemma nonzero_app_l (t1 t2 : trace) :
  widths_nonzero (t1 ++ t2) -> widths_nonzero t1.
Proof.
  unfold contexts_valid, widths_nonzero. rewrite forallb_app.
  now intros [Hl _]%andb_prop.
Qed.

Lemma nonzero_app_r (t1 t2 : trace) :
  widths_nonzero (t1 ++ t2) -> widths_nonzero t2.
Proof.
  unfold contexts_valid, widths_nonzero. rewrite forallb_app.
  now intros [_ Hr]%andb_prop.
Qed.

(** What one operation does to the two counts: it asks for the context at
    most once, and if it asked, the cache is filled afterwards; the same
    for the width. *)
Lemma op_asks_once (o : op) (p : process) :
  let r := run_op cfg o p in
  (contexts_valid (calls r) ->
   (filter is_context_query (calls r) = [] /\
    cogl_context (statics (after r)) = cogl_context (statics p)) \/
   (List.length (filter is_context_query (calls r)) = 1%nat /\
    cogl_context (statics (after r)) <> NULL)) /\
  (widths_nonzero (calls r) ->
   (filter is_width_query (calls r) = [] /\
    screen_width (statics (after r)) = screen_width (statics p)) \/
   (List.length (filter is_width_query (calls r)) = 1%nat /\
    screen_width (statics (after r)) <> 0)).
Proof.
  intros r. subst r.
  destruct o as [rd g bl a flags | src | | w h | e].
  - cbn. split; intros _; left; now split.
  - unfold run_op, meta_create_texture_material,
      meta_create_color_texture_4ub. cbn.
    destruct (is_null (texture_material_template (statics p)));
      destruct (is_null src); cbn; split; intros _; left; now split.
  - unfold run_op. cbn [bind ret Monad_M value after calls fst snd].
    rewrite app_nil_r.
    fold (calls (hardware_supports_npot_sizes p)).
    fold (after (hardware_supports_npot_sizes p)).
    split; intros Hv.
    + now destruct (query_asks_once p Hv) as (_ & _ & Hc).
    + left. clear Hv.
      unfold hardware_supports_npot_sizes. cbn.
      destruct (is_null (cogl_context (statics p))); now split.
  - unfold run_op. cbn [bind ret Monad_M value after calls fst snd].
    rewrite app_nil_r.
    fold (calls (clamp_sizes w h p)). fold (after (clamp_sizes w h p)).
    split; intros Hv.
    + left. clear Hv. unfold clamp_sizes. cbn.
      destruct (screen_width (statics p) =? 0); now split.
    + now destruct (clamp_asks_once w h p Hv) as (_ & _ & Hc).
  - unfold run_op. cbn [bind ret Monad_M value after calls fst snd].
    rewrite app_nil_r.
    fold (calls (run_entry cfg e p)). fold (after (run_entry cfg e p)).
    destruct (entry_shape e p) as (ev & Hcall & Hcalls & _ & Hstatics).
    rewrite Hcalls, Hstatics.
    destruct (no_cache_query_filters _ (entry_tail_no_cache_query e p ev Hcall))
      as (Tc & Tw).
    rewrite !filter_app, Tc, Tw, !app_nil_r.
    destruct e as [w h ? ? ? ? ? | ? ? ? | w h ? ?];
      cbn [entry_queries entry_probe].
    1,3: set (r0 := clamp_sizes w h p);
         set (r1 := hardware_supports_npot_sizes (after r0));
         rewrite !filter_app; split; intros Hv.
    1,3: apply valid_app_l in Hv; apply valid_app_r in Hv; fold r1 in Hv;
         destruct (query_asks_once (after r0) Hv) as (_ & _ & Hq);
         fold r1 in Hq;
         assert (Hc0 : filter is_context_query (calls r0) = []
                       /\ cogl_context (statics (after r0))
                          = cogl_context (statics p))
           by (subst r0; unfold clamp_sizes; cbn;
               destruct (screen_width (statics p) =? 0); now split);
         destruct Hc0 as (F0 & E0); rewrite F0; cbn [app];
         destruct Hq as [(Fq & Eq)|(Fq & Eq)]; [left|right];
         (split; [exact Fq || (now rewrite Fq) | congruence]).
    1,2: apply nonzero_app_l in Hv; apply nonzero_app_l in Hv;
         fold r0 in Hv;
         destruct (clamp_asks_once w h p Hv) as (_ & _ & Hc); fold r0 in Hc;
         assert (Hq0 : filter is_width_query (calls r1) = []
                       /\ screen_width (statics (after r1))
                          = screen_width (statics (after r0)))
           by (subst r1; unfold hardware_supports_npot_sizes; cbn;
               destruct (is_null (cogl_context (statics (after r0))));
               now split);
         destruct Hq0 as (F1 & E1); rewrite F1, app_nil_r;
         destruct Hc as [(Fc & Ec)|(Fc & Ec)]; [left|right];
         (split; [exact Fc | congruence]).
    split; intros Hv.
    + apply valid_app_l in Hv.
      now destruct (query_asks_once p Hv) as (_ & _ & Hq).
    + left. clear Hv. unfold hardware_supports_npot_sizes. cbn.
      destruct (is_null (cogl_context (statics p))); now split.
Qed.

Lemma warm_run_asks_no_context (l : list op) (p : process) :
  cogl_context (statics p) <> NULL ->
  filter is_context_query (calls (run_ops cfg l p)) = [].
Proof.
  intros Hctx.
  apply (forallb_filter_nil no_backend_query).
  - intros [[] r]; cbn; congruence.
  - apply (preserves_run cfg
             (on_statics (capability_is (cogl_context (statics p))
                            (supports_npot (statics p))))
             no_backend_query l
             (fun o => capability_kept_by_op cfg _ _ o) p).
    now repeat split.
Qed.

Lemma warm_run_asks_no_width (l : list op) (p : process) :
  screen_width (statics p) <> 0 ->
  filter is_width_query (calls (run_ops cfg l p)) = [].
Proof.
  intros Hw.
  apply (forallb_filter_nil no_screen_query).
  - intros [[] r]; cbn; congruence.
  - apply (preserves_run cfg
             (on_statics (screen_is (screen_width (statics p))
                            (screen_height (statics p))))
             no_screen_query l
             (fun o => screen_kept_by_op cfg _ _ o) p).
    now repeat split.
Qed.

Lemma run_calls_cons (o : op) (l : list op) (p : process) :
  calls (run_ops cfg (o :: l) p)
  = calls (run_op cfg o p) ++ calls (run_ops cfg l (after (run_op cfg o p))).
Proof.
  cbn [run_ops]. cbn [bind ret Monad_M value after calls fst snd].
  now rewrite app_nil_r.
Qed.

Lemma context_asked_once (l : list op) (p : process) :
  contexts_valid (calls (run_ops cfg l p)) ->
  (List.length (filter is_context_query (calls (run_ops cfg l p))) <= 1)%nat.
Proof.
  revert p. induction l as [|o l IH]; intros p Hv.
  - cbn. lia.
  - rewrite run_calls_cons in Hv |- *.
    rewrite filter_app, length_app.
    destruct (proj1 (op_asks_once o p) (valid_app_l _ _ Hv))
      as [(Fo & _)|(Fo & Hfilled)].
    + rewrite Fo. cbn [List.length]. apply IH, (valid_app_r _ _ Hv).
    + rewrite Fo, (warm_run_asks_no_context l _ Hfilled). cbn. lia.
Qed.

Lemma width_asked_once (l : list op) (p : process) :
  widths_nonzero (calls (run_ops cfg l p)) ->
  (List.length (filter is_width_query (calls (run_ops cfg l p))) <= 1)%nat.
Proof.
  revert p. induction l as [|o l IH]; intros p Hv.
  - cbn. lia.
  - rewrite run_calls_cons in Hv |- *.
    rewrite filter_app, length_app.
    destruct (proj2 (op_asks_once o p) (nonzero_app_l _ _ Hv))
      as [(Fo & _)|(Fo & Hfilled)].
    + rewrite Fo. cbn [List.length]. apply IH, (nonzero_app_r _ _ Hv).
    + rewrite Fo, (warm_run_asks_no_width l _ Hfilled). cbn. lia.
Qed.

(** X12.  In a run of the module from any state, if every context the
    backend handed out was a context (not [NULL]), the backend was asked
    for its context at most once; and if every width the screen reported
    was a width (not 0), the screen was asked for its width at most once.
    The two caches are filled by whichever operation needs them first and
    serve every later one. *)
Theorem collaborators_asked_at_most_once (l : list op) (p : process) :
  (contexts_valid (calls (run_ops cfg l p)) ->
   (List.length (filter is_context_query (calls (run_ops cfg l p))) <= 1)%nat)
  /\
  (widths_nonzero (calls (run_ops cfg l p)) ->
   (List.length (filter is_width_query (calls (run_ops cfg l p))) <= 1)%nat).
Proof.
  split; [apply context_asked_once | apply width_asked_once].
Qed.

(** ** X13: the build switch *)

Lemma not_2d_as_built (t : trace) :
  forallb not_2d t = true -> Forall (extra_argument_as_built cfg) t.
Proof.
  intros Ht. apply Forall_forall. intros e Hin.
  rewrite forallb_forall in Ht. specialize (Ht e Hin).
  destruct e as [[] r]; cbn in Ht |- *; try exact I; discriminate.
Qed.

Lemma op_as_built (o : op) (p : process) :
  Forall (extra_argument_as_built cfg) (calls (run_op cfg o p)).
Proof.
  destruct (is_texture_op o) eqn:Ho.
  - destruct o as [ | | | | e]; try discriminate.
    rewrite texture_op_calls.
    destruct (entry_shape e p) as (ev & Hcall & Hcalls & _ & _).
    rewrite Hcalls. apply Forall_app. split; [|constructor].
    + apply not_2d_as_built, entry_queries_only.
      intros [[] r]; cbn; congruence.
    + destruct ev as [k a]. cbn [event_call] in Hcall.
      unfold extra_argument_as_built. cbn [event_call].
      destruct e; cbn [chosen_constructor] in Hcall;
        destruct (capability_seen _ p); subst k; cbn; try exact I;
        unfold before_1_18; reflexivity.
    + apply not_2d_as_built, report_allowed.
      intros [[] r]; cbn; congruence.
  - apply not_2d_as_built.
    apply (forallb_weaken helper_event); [|now apply plain_op_calls].
    intros [[] r]; cbn; congruence.
Qed.

(** X13.  In every run, every 2D constructor call has the argument that
    only exists before Cogl 1.18 exactly when the build is against such a
    Cogl, and then it is [COGL_PIXEL_FORMAT_ANY] for the from-data and
    from-file constructors and [CLUTTER_CAIRO_FORMAT_ARGB32] for the
    with-size one: the internal format the caller passed never reaches a
    2D constructor. *)
Theorem extra_argument_follows_the_build (l : list op) (p : process) :
  Forall (extra_argument_as_built cfg) (calls (run_ops cfg l p)).
Proof.
  revert p. induction l as [|o l IH]; intros p.
  - constructor.
  - rewrite run_calls_cons. apply Forall_app. split; [apply op_as_built|].
    apply IH.
Qed.

End Runs.

(** * Runs of the module on Cogl's object store *)

Section MaterialRuns.

Context `{World} `{CoglColorAPI} `{!CoglContract}.
Variable cfg : build.

Lemma left_alone_invoke t hs w0 (c : call) :
  (forall r, benign (Ev c r) = true) ->
  preserves (left_alone t hs w0) (template_in_use t) (invoke c).
Proof.
  intros Hb. apply preserves_invoke.
  - intros p (Ht & Hlt & Hh).
    pose proof (Hb (fst (respond c (world p)))) as Hc.
    assert (Hrel : forall h, releases c h = false)
      by (intro h; destruct c; cbn in Hc |- *; congruence).
    assert (Hwr : forall h i, writes_layer c h i = false)
      by (intros h i; destruct c; cbn in Hc |- *; congruence).
    split; [exact Ht|]. cbn. split; [now apply live_kept|].
    intros h Hin. destruct (Hh h Hin) as (Hl & Hy).
    split; [now apply live_kept|].
    intros i. rewrite layer_kept; auto.
  - intros r. specialize (Hb r). destruct c; cbn in Hb |- *; congruence.
Qed.

Lemma left_alone_store t hs w0 (update : globals -> globals) :
  (forall g, texture_material_template (update g)
             = texture_material_template g) ->
  preserves (left_alone t hs w0) (template_in_use t) (store update).
Proof.
  intros Hu. apply preserves_store. intros p (Ht & Hh).
  split; [cbn; now rewrite Hu | exact Hh].
Qed.

Ltac name_call :=
  match goal with
  | |- context [respond ?c ?w] =>
      lazymatch c with context [respond _ _] => fail | _ => idtac end;
      lazymatch w with context [respond _ _] => fail | _ => idtac end;
      let a := fresh "a" in
      let w' := fresh "w" in
      let E := fresh "E" in
      destruct (respond c w) as [a w'] eqn:E; cbn [fst snd] in *
  end.

Lemma left_alone_op t hs w0 (o : op) :
  t <> COGL_INVALID_HANDLE ->
  preserves (left_alone t hs w0) (template_in_use t) (run_op cfg o).
Proof.
  intros Hne.
  destruct o as [r g bl a flags | src | | wd ht | [ | | ]].
  2: { intros p (Ht & Hlt & Hh).
       unfold run_op. cbn [bind ret Monad_M value after calls fst snd].
       rewrite material_unfold, Ht, (is_null_false _ Hne).
       unfold copy_template, left_alone. cbn. rewrite Ht.
       pose proof (copy_is_fresh (world p) t Hlt) as (_ & Hfresh & Hlive & _).
       name_call. rename a into m, w into w1.
       assert (Hk : forall h, live (world p) h ->
                 live w1 h /\ forall i, layer w1 h i = layer (world p) h i).
       { intros h Hl. split.
         - apply (kept_live _ _ _ _ h E eq_refl Hl).
         - intros i. apply (kept_layer _ _ _ _ h i E eq_refl Hl). }
       destruct (is_null src); cbn; rewrite N.eqb_refl.
       - split; [|reflexivity].
         split; [exact Ht|]. split; [apply Hk, Hlt|].
         intros h Hin. destruct (Hh h Hin) as (Hl & Hy).
         split; [apply Hk, Hl|].
         intros i. rewrite (proj2 (Hk h Hl)). apply Hy.
       - name_call. rename w into w2.
         assert (Hk2 : forall h, live (world p) h ->
                   live w2 h /\ forall i, layer w2 h i = layer (world p) h i).
         { intros h Hl. destruct (Hk h Hl) as (Hl1 & Hy1).
           assert (Hmh : m <> h) by (intros ->; now apply Hfresh).
           split.
           - apply (kept_live _ _ _ _ h E0 eq_refl Hl1).
           - intros i. rewrite <- Hy1.
             apply (kept_layer _ _ _ _ h i E0); [|exact Hl1].
             cbn. apply N.eqb_neq in Hmh. now rewrite Hmh. }
         split; [|reflexivity].
         split; [exact Ht|]. split; [apply Hk2, Hlt|].
         intros h Hin. destruct (Hh h Hin) as (Hl & Hy).
         split; [apply Hk2, Hl|].
         intros i. rewrite (proj2 (Hk2 h Hl)). apply Hy. }
  all: cbn [run_op run_entry];
    unfold meta_create_color_texture_4ub,
      meta_cogl_texture_new_from_data_wrapper,
      meta_cogl_texture_new_from_file_wrapper,
      meta_cogl_texture_new_with_size_wrapper,
      hardware_supports_npot_sizes, clamp_sizes;
    repeat lazymatch goal with
      | |- preserves _ _ (ret _) => apply preserves_ret
      | |- preserves _ _ (load _) => apply preserves_load
      | |- preserves _ _ (bind _ _) => apply preserves_bind; [| intro]
      | |- preserves _ _ (if _ then _ else _) => apply preserves_if
      | |- preserves _ _ (report_error _ _) => apply preserves_report; intro
      | |- preserves _ _ (invoke _) =>
          apply left_alone_invoke; intro; reflexivity
      | |- preserves _ _ (store _) =>
          apply left_alone_store; intro; reflexivity
      end.
Qed.

(** X14.  Assume Cogl keeps its side ([CoglContract]).  Once the template
    exists and is allocated, no run of the module changes a layer of, or
    frees, any handle that was allocated before the run: the template
    keeps its layers, and so does every material handed out earlier and
    every texture a caller holds.  What the module writes to are only the
    copies it makes during the run. *)
Theorem earlier_handles_are_left_alone
    (l : list op) (p : process) (h : CoglHandle) :
  texture_material_template (statics p) <> COGL_INVALID_HANDLE ->
  live (world p) (texture_material_template (statics p)) ->
  live (world p) h ->
  live (world (after (run_ops cfg l p))) h /\
  forall i, layer (world (after (run_ops cfg l p))) h i
            = layer (world p) h i.
Proof.
  intros Hne Hlt Hlh.
  destruct (preserves_run cfg
              (left_alone (texture_material_template (statics p)) [h]
                 (world p))
              (template_in_use (texture_material_template (statics p))) l
              (fun o => left_alone_op _ _ _ o Hne) p) as ((_ & _ & Hh) & _).
  { split; [reflexivity|]. split; [exact Hlt|].
    intros h' [<-|[]]. now split. }
  apply Hh. now left.
Qed.

End MaterialRuns.

(** * The scripted world keeps Cogl's side *)

Lemma scripted_contract : @CoglContract scripted.
Proof.
  constructor; cbn [W respond live layer scripted].
  - intros w. cbn. unfold dbl_live, COGL_INVALID_HANDLE, NULL. cbn. lia.
  - intros w m Hm. cbn. unfold dbl_live, COGL_INVALID_HANDLE, NULL in *.
    cbn. repeat split; try lia.
    intros i. now rewrite N.eqb_refl.
  - intros w width height flags format internal_format rowstride data.
    cbn. unfold dbl_texture.
    destruct (dbl_failure w); cbn; [now left | right].
    unfold dbl_live. cbn. lia.
  - intros w m i t _. cbn. now rewrite N.eqb_refl, Z.eqb_refl.
  - intros c w h Hh _. unfold dbl_live in *.
    destruct c; cbn; try exact Hh;
      try (unfold dbl_texture, dbl_texture_or_error;
           destruct (dbl_failure w); cbn; lia);
      try lia.
    destruct feature; exact Hh.
  - intros c w m i Hm Hw. unfold dbl_live in Hm.
    destruct c; cbn; try reflexivity;
      try (unfold dbl_texture, dbl_texture_or_error;
           destruct (dbl_failure w); reflexivity).
    + destruct feature; reflexivity.
    + cbn in Hw.
      destruct (N.eqb_spec m material), (Z.eqb_spec i layer_index);
        subst; cbn; try reflexivity.
      rewrite N.eqb_refl, Z.eqb_refl in Hw. discriminate.
    + destruct (N.eqb_spec m (N.succ (dbl_allocated w))); [lia | reflexivity].
Qed.

(** * The module on the scripted world *)

Example desktop_with_size :
  let r := meta_cogl_texture_new_with_size_wrapper cogl_1_18 10000 10000
             COGL_TEXTURE_NONE COGL_PIXEL_FORMAT_ANY
             (process_start (desktop true None)) in
  value r = 1%N /\
  calls r
  = [ Ev Gdk_screen_get_default 1%N;
      Ev (Gdk_screen_get_width 1%N) 1920;
      Ev (Gdk_screen_get_height 1%N) 1080;
      Ev Clutter_get_default_backend 100%N;
      Ev (Clutter_backend_get_cogl_context 100%N) 200%N;
      Ev (Cogl_has_feature 200%N COGL_FEATURE_ID_TEXTURE_NPOT) true;
      Ev (Cogl_texture_2d_new_with_size 200%N 3840 2160 None) 1%N ].
Proof. split; reflexivity. Qed.

Example red_pixel_in_cogl_1 :
  calls (meta_create_color_texture_4ub xff x00 x00 xff COGL_TEXTURE_NONE
           (process_start (desktop true None)))
  = [ Ev (Cogl_texture_new_from_data 1 1 COGL_TEXTURE_NONE
            COGL_PIXEL_FORMAT_RGBA_8888_PRE COGL_PIXEL_FORMAT_ANY 4
            [xff; x00; x00; xff]) 1%N ].
Proof. reflexivity. Qed.

Example half_transparent_white_in_cogl_1 :
  premultiplied_pixel xff xff xff x80 = [x80; x80; x80; x80].
Proof. reflexivity. Qed.

Lemma clamp_sizes_min_witness :
  let p := process_start (desktop true None) in
  in_gint (2 * screen_width (statics (after (clamp_sizes 10000 10000 p)))) /\
  in_gint (2 * screen_height (statics (after (clamp_sizes 10000 10000 p)))) /\
  value (clamp_sizes 10000 10000 p) = (3840, 2160).
Proof.
  intros p.
  assert (HW : in_gint
                 (2 * screen_width
                        (statics (after (clamp_sizes 10000 10000 p)))))
    by (vm_compute; split; discriminate).
  assert (HH : in_gint
                 (2 * screen_height
                        (statics (after (clamp_sizes 10000 10000 p)))))
    by (vm_compute; split; discriminate).
  split; [exact HW | split; [exact HH|]].
  destruct (clamp_sizes_min p 10000 10000 HW HH) as (_ & _ & Hexample).
  apply (proj1 (Hexample eq_refl eq_refl)); reflexivity.
Defined.

Lemma clamp_with_empty_cache_witness :
  let p := process_start early_start in
  screen_width (statics p) = 0 /\
  exists (screen : GdkScreen) (w h : gint),
    calls (clamp_sizes 800 600 p)
    = [ Ev Gdk_screen_get_default screen;
        Ev (Gdk_screen_get_width screen) w;
        Ev (Gdk_screen_get_height screen) h ] /\
    screen_width (statics (after (clamp_sizes 800 600 p))) = w /\
    screen_height (statics (after (clamp_sizes 800 600 p))) = h /\
    value (clamp_sizes 800 600 p)
    = (MIN 800 (gint_mul w 2), MIN 600 (gint_mul h 2)) /\
    (w = 0 -> h = 0 -> 0 <= 800 -> 0 <= 600 ->
     value (clamp_sizes 800 600 p) = (0, 0)).
Proof.
  intros p. split; [reflexivity|].
  exact (clamp_with_empty_cache p 800 600 eq_refl).
Defined.

Lemma caches_are_sticky_witness :
  let l := [ Hardware_supports_npot_sizes;
             Clamp_sizes 10000 10000;
             Texture_new (From_file "a.png" COGL_TEXTURE_NONE
                            COGL_PIXEL_FORMAT_ANY);
             Create_texture_material COGL_INVALID_HANDLE;
             Clamp_sizes 800 600 ] in
  cogl_context (statics warmed_up) <> NULL /\
  screen_width (statics warmed_up) <> 0 /\
  existsb is_backend_query (calls (run_ops cogl_1_18 l warmed_up)) = false /\
  existsb is_screen_query (calls (run_ops cogl_1_18 l warmed_up)) = false /\
  nth_error (value (run_ops cogl_1_18 l warmed_up)) 0 = Some (Flag true) /\
  nth_error (value (run_ops cogl_1_18 l warmed_up)) 1
  = Some (Size 3840 2160).
Proof.
  intros l.
  assert (Hctx : cogl_context (statics warmed_up) <> NULL)
    by (vm_compute; discriminate).
  assert (Hscreen : screen_width (statics warmed_up) <> 0)
    by (vm_compute; discriminate).
  destruct (caches_are_sticky cogl_1_18 l warmed_up) as (Hcap & Hscr).
  destruct (Hcap Hctx) as (_ & _ & Hquiet & Hflag).
  destruct (Hscr Hscreen) as (_ & _ & Hquiet' & Hsize).
  split; [exact Hctx | split; [exact Hscreen|]].
  split; [exact Hquiet | split; [exact Hquiet'|]].
  split.
  - exact (Hflag 0%nat eq_refl).
  - exact (Hsize 1%nat 10000 10000 eq_refl).
Defined.

Lemma npot_path_ignores_flags_and_internal_format_witness :
  let p := process_start (desktop true None) in
  value (hardware_supports_npot_sizes (after (clamp_sizes 300 200 p)))
  = true /\
  meta_cogl_texture_new_with_size_wrapper cogl_1_16 300 200 COGL_TEXTURE_NONE
    COGL_PIXEL_FORMAT_ANY p
  = meta_cogl_texture_new_with_size_wrapper cogl_1_16 300 200 2%N
      COGL_PIXEL_FORMAT_RGBA_8888 p.
Proof.
  intros p. split; [reflexivity|].
  exact (proj2 (npot_path_ignores_flags_and_internal_format cogl_1_16 p
                  300 200 COGL_TEXTURE_NONE 2%N COGL_PIXEL_FORMAT_ANY
                  COGL_PIXEL_FORMAT_RGBA_8888 eq_refl)).
Defined.

Lemma material_from_shared_template_witness :
  let l := [ Create_texture_material COGL_INVALID_HANDLE;
             Texture_new (With_size 64 64 COGL_TEXTURE_NONE
                            COGL_PIXEL_FORMAT_ANY);
             Create_texture_material 4%N;
             Texture_new (With_size 32 32 COGL_TEXTURE_NONE
                            COGL_PIXEL_FORMAT_ANY) ] in
  let start := run_ops cogl_1_18 l (process_start (desktop false None)) in
  let r := meta_create_texture_material 6%N (after start) in
  let t := texture_material_template (statics (after r)) in
  @CoglContract scripted /\
  (List.length (filter is_material_new (calls start)) <= 1)%nat /\
  List.length (filter is_material_new (calls start ++ calls r)) = 1%nat /\
  (texture_material_template (statics (after start)) = COGL_INVALID_HANDLE \/
   texture_material_template (statics (after start)) = t) /\
  t <> COGL_INVALID_HANDLE /\
  value r <> COGL_INVALID_HANDLE /\
  value r <> t /\
  ~ In (value r) (materials_of l (value start)) /\
  In (Ev (Cogl_material_copy t) (value r)) (calls r) /\
  exists d,
    layer (world (after r)) t 0 = Some d /\
    In (Ev white_texture_call d) (calls start ++ calls r) /\
    layer (world (after r)) (value r) 0
    = Some (if is_null 6%N then d else 6%N).
Proof.
  intros l start r t. split; [exact scripted_contract|].
  exact (@material_from_shared_template scripted cogl1_color
           scripted_contract cogl_1_18 (desktop false None) l 6%N).
Defined.

Example materials_on_the_desktop :
  let l := [ Create_texture_material COGL_INVALID_HANDLE;
             Texture_new (With_size 64 64 COGL_TEXTURE_NONE
                            COGL_PIXEL_FORMAT_ANY);
             Create_texture_material 4%N ] in
  let r := run_ops cogl_1_18 l (process_start (desktop false None)) in
  value r = [Handle 3%N; Handle 4%N; Handle 5%N] /\
  texture_material_template (statics (after r)) = 2%N /\
  layer (world (after r)) 2%N 0 = Some 1%N /\
  layer (world (after r)) 3%N 0 = Some 1%N /\
  layer (world (after r)) 5%N 0 = Some 4%N.
Proof. repeat split. Qed.

(** * Where the specification and the code part *)

(** Against C1 as written: on the desktop with non-power-of-two support,
    the with-size entry point calls [cogl_texture_2d_new_with_size], which
    is given no pixel format. *)
Lemma dispatch_with_pixel_format_fails :
  ~ dispatch_with_pixel_format cogl_1_18
      (With_size 800 600 COGL_TEXTURE_NONE COGL_PIXEL_FORMAT_ANY)
      (process_start (desktop true None)).
Proof.
  intros (ev & Hev & _ & _ & Hformat).
  vm_compute in Hev. injection Hev as <-.
  apply Hformat. reflexivity.
Qed.

(** Against C6 as written: without non-power-of-two support, a failing
    [cogl_texture_new_from_file], the legacy constructor, stores an error
    and the wrapper logs it, though no 2D constructor was called. *)
Lemma errors_only_from_2d_fails :
  ~ errors_only_from_2d cogl_1_16
      (From_file "a.png" COGL_TEXTURE_NONE COGL_PIXEL_FORMAT_ANY)
      (process_start (desktop false (Some out_of_memory))).
Proof.
  intros Hclaim. destruct Hclaim as (ev & Hin & Hkind); [reflexivity|].
  vm_compute in Hin.
  repeat (destruct Hin as [<-|Hin]; [discriminate Hkind|]).
  exact Hin.
Qed.

(** Against C7 as written: started before the display is there, the first
    clamp caches a width of 0; the second asks again, finds the 1920x1080
    screen and leaves (800, 600) alone. *)
Lemma zero_screen_sticks_fails :
  ~ zero_screen_sticks 800 600 800 600 (process_start early_start).
Proof.
  intros Hclaim. specialize (Hclaim eq_refl).
  vm_compute in Hclaim. discriminate Hclaim.
Qed.

(** * The run-level properties on the scripted world *)

Lemma from_file_npot_ignores_flags_and_internal_format_witness :
  let p := process_start (desktop true None) in
  value (hardware_supports_npot_sizes p) = true /\
  meta_cogl_texture_new_from_file_wrapper cogl_1_18 "a.png"
    COGL_TEXTURE_NONE COGL_PIXEL_FORMAT_ANY p
  = meta_cogl_texture_new_from_file_wrapper cogl_1_18 "a.png" 2%N
      COGL_PIXEL_FORMAT_RGBA_8888 p.
Proof.
  intros p. split; [reflexivity|].
  exact (from_file_npot_ignores_flags_and_internal_format cogl_1_18 p
           "a.png" COGL_TEXTURE_NONE 2%N COGL_PIXEL_FORMAT_ANY
           COGL_PIXEL_FORMAT_RGBA_8888 eq_refl).
Defined.

Lemma clamp_never_enlarges_witness :
  let p := process_start (desktop true None) in
  let r := clamp_sizes 10000 10000 p in
  screen_width (statics (after r)) <> 0 /\
  value r = (3840, 2160) /\
  clamp_sizes (fst (value r)) (snd (value r)) (after r)
  = (value r, after r, []).
Proof.
  intros p r.
  assert (Hfilled : screen_width (statics (after r)) <> 0)
    by (vm_compute; discriminate).
  split; [exact Hfilled | split; [reflexivity|]].
  destruct (clamp_never_enlarges p 10000 10000) as (_ & _ & _ & Hagain).
  exact (Hagain Hfilled).
Defined.

Lemma capability_query_repeats_witness :
  let p := process_start (desktop true None) in
  let r := hardware_supports_npot_sizes p in
  cogl_context (statics (after r)) <> NULL /\
  hardware_supports_npot_sizes (after r) = (value r, after r, []).
Proof.
  intros p r.
  assert (Hctx : cogl_context (statics (after r)) <> NULL)
    by (vm_compute; discriminate).
  split; [exact Hctx|].
  exact (capability_query_repeats p Hctx).
Defined.

Lemma material_helper_leaves_caches_witness :
  let p := process_start (desktop true None) in
  let r := meta_create_texture_material 7%N p in
  let r' := meta_create_texture_material 7%N
              (with_statics (statics warmed_up) p) in
  texture_material_template (statics warmed_up)
  = texture_material_template (statics p) /\
  value r' = value r /\ calls r' = calls r /\
  world (after r') = world (after r).
Proof.
  intros p r r'. split; [reflexivity|].
  destruct (material_helper_leaves_caches 7%N p)
    as (_ & _ & _ & _ & _ & _ & _ & Hsame).
  exact (Hsame (statics warmed_up) eq_refl).
Defined.

Lemma textures_leave_the_template_witness :
  let l := [ Texture_new (With_size 64 64 COGL_TEXTURE_NONE
                            COGL_PIXEL_FORMAT_ANY);
             Create_color_texture_4ub xff x00 x00 xff COGL_TEXTURE_NONE;
             Texture_new (From_file "a.png" COGL_TEXTURE_NONE
                            COGL_PIXEL_FORMAT_ANY);
             Clamp_sizes 10 10 ] in
  forallb (fun o => negb (is_material_op o)) l = true /\
  texture_material_template
    (statics (after (run_ops cogl_1_18 l with_template)))
  = texture_material_template (statics with_template) /\
  forallb benign (calls (run_ops cogl_1_18 l with_template)) = true.
Proof.
  intros l. split; [reflexivity|].
  exact (textures_leave_the_template cogl_1_18 l with_template eq_refl).
Defined.

Lemma template_is_sticky_witness :
  let l := [ Create_texture_material COGL_INVALID_HANDLE;
             Texture_new (With_size 64 64 COGL_TEXTURE_NONE
                            COGL_PIXEL_FORMAT_ANY);
             Create_texture_material 5%N ] in
  texture_material_template (statics with_template) <> COGL_INVALID_HANDLE /\
  texture_material_template
    (statics (after (run_ops cogl_1_18 l with_template)))
  = texture_material_template (statics with_template) /\
  forallb (template_in_use (texture_material_template (statics with_template)))
    (calls (run_ops cogl_1_18 l with_template)) = true.
Proof.
  intros l.
  assert (Hne : texture_material_template (statics with_template)
                <> COGL_INVALID_HANDLE) by (vm_compute; discriminate).
  split; [exact Hne|].
  exact (template_is_sticky cogl_1_18 l with_template Hne).
Defined.

Lemma only_the_dummy_is_released_witness :
  let l := [ Create_texture_material COGL_INVALID_HANDLE;
             Texture_new (With_size 64 64 COGL_TEXTURE_NONE
                            COGL_PIXEL_FORMAT_ANY);
             Create_texture_material 4%N ] in
  let p := process_start (desktop false None) in
  let t := calls (run_ops cogl_1_18 l p) in
  In (Ev (Cogl_handle_unref 1%N) tt) t /\
  In (Ev white_texture_call 1%N) t.
Proof.
  intros l p t.
  assert (Hin : In (Ev (Cogl_handle_unref 1%N) tt) t).
  { do 3 right. left. reflexivity. }
  split; [exact Hin|].
  exact (proj1 (only_the_dummy_is_released cogl_1_18 l p) 1%N tt Hin).
Defined.

Lemma dispatch_is_sticky_witness :
  let l := [ Texture_new (With_size 64 64 COGL_TEXTURE_NONE
                            COGL_PIXEL_FORMAT_ANY);
             Texture_new (From_file "a.png" COGL_TEXTURE_NONE
                            COGL_PIXEL_FORMAT_ANY);
             Texture_new (From_data 2 1 COGL_TEXTURE_NONE
                            COGL_PIXEL_FORMAT_RGBA_8888
                            COGL_PIXEL_FORMAT_ANY 8
                            [xff; x00; x00; xff; x00; xff; x00; xff]) ] in
  cogl_context (statics warmed_up) <> NULL /\
  supports_npot (statics warmed_up) = true /\
  forallb is_texture_op l = true /\
  forallb (only_2d_on (cogl_context (statics warmed_up)))
    (calls (run_ops cogl_1_18 l warmed_up)) = true.
Proof.
  intros l.
  assert (Hctx : cogl_context (statics warmed_up) <> NULL)
    by (vm_compute; discriminate).
  split; [exact Hctx | split; [reflexivity | split; [reflexivity|]]].
  exact (proj2 (dispatch_is_sticky cogl_1_18 l warmed_up Hctx)
           eq_refl eq_refl).
Defined.

Lemma warm_entry_calls_only_its_constructor_witness :
  let e := From_file "a.png" COGL_TEXTURE_NONE COGL_PIXEL_FORMAT_ANY in
  cogl_context (statics warmed_up) <> NULL /\
  screen_width (statics warmed_up) <> 0 /\
  exists ev,
    calls (run_entry cogl_1_18 e warmed_up)
    = ev :: error_report (log_prefix e) (error_of ev) /\
    constructor_of (event_call ev)
    = Some (if supports_npot (statics warmed_up)
            then Texture2D else Legacy) /\
    handle_of ev = Some (value (run_entry cogl_1_18 e warmed_up)) /\
    statics (after (run_entry cogl_1_18 e warmed_up)) = statics warmed_up.
Proof.
  intros e.
  assert (Hctx : cogl_context (statics warmed_up) <> NULL)
    by (vm_compute; discriminate).
  assert (Hw : screen_width (statics warmed_up) <> 0)
    by (vm_compute; discriminate).
  split; [exact Hctx | split; [exact Hw|]].
  exact (warm_entry_calls_only_its_constructor cogl_1_18 e warmed_up Hctx Hw).
Defined.

Lemma sizes_within_twice_the_screen_witness :
  let l := [ Texture_new (With_size 10000 10000 COGL_TEXTURE_NONE
                            COGL_PIXEL_FORMAT_ANY);
             Create_texture_material COGL_INVALID_HANDLE;
             Texture_new (From_data 5000 1 COGL_TEXTURE_NONE
                            COGL_PIXEL_FORMAT_A_8 COGL_PIXEL_FORMAT_ANY
                            5000 []) ] in
  0 < screen_width (statics warmed_up) /\
  0 < screen_height (statics warmed_up) /\
  in_gint (2 * screen_width (statics warmed_up)) /\
  in_gint (2 * screen_height (statics warmed_up)) /\
  forallb (size_within (2 * screen_width (statics warmed_up))
             (2 * screen_height (statics warmed_up)))
    (calls (run_ops cogl_1_18 l warmed_up)) = true.
Proof.
  intros l.
  assert (HW : 0 < screen_width (statics warmed_up)) by reflexivity.
  assert (HH : 0 < screen_height (statics warmed_up)) by reflexivity.
  assert (GW : in_gint (2 * screen_width (statics warmed_up)))
    by (vm_compute; split; discriminate).
  assert (GH : in_gint (2 * screen_height (statics warmed_up)))
    by (vm_compute; split; discriminate).
  split; [exact HW | split; [exact HH | split; [exact GW|]]].
  split; [exact GH|].
  exact (sizes_within_twice_the_screen cogl_1_18 l warmed_up HW HH GW GH).
Defined.

Lemma collaborators_asked_at_most_once_witness :
  let l := [ Texture_new (With_size 64 64 COGL_TEXTURE_NONE
                            COGL_PIXEL_FORMAT_ANY);
             Hardware_supports_npot_sizes;
             Clamp_sizes 10000 10000;
             Texture_new (From_file "a.png" COGL_TEXTURE_NONE
                            COGL_PIXEL_FORMAT_ANY) ] in
  let p := process_start (desktop true None) in
  let t := calls (run_ops cogl_1_18 l p) in
  contexts_valid t /\ widths_nonzero t /\
  (List.length (filter is_context_query t) <= 1)%nat /\
  (List.length (filter is_width_query t) <= 1)%nat.
Proof.
  intros l p t.
  assert (Hc : contexts_valid t) by reflexivity.
  assert (Hw : widths_nonzero t) by reflexivity.
  destruct (collaborators_asked_at_most_once cogl_1_18 l p)
    as (Hctx & Hwidth).
  split; [exact Hc | split; [exact Hw|]].
  split; [exact (Hctx Hc) | exact (Hwidth Hw)].
Defined.

Lemma earlier_handles_are_left_alone_witness :
  let l := [ Create_texture_material COGL_INVALID_HANDLE;
             Texture_new (With_size 64 64 COGL_TEXTURE_NONE
                            COGL_PIXEL_FORMAT_ANY);
             Create_texture_material 5%N ] in
  @CoglContract scripted /\
  texture_material_template (statics with_template) <> COGL_INVALID_HANDLE /\
  live (world with_template)
       (texture_material_template (statics with_template)) /\
  live (world with_template) 3%N /\
  live (world (after (run_ops cogl_1_18 l with_template))) 3%N /\
  forall i, layer (world (after (run_ops cogl_1_18 l with_template))) 3%N i
            = layer (world with_template) 3%N i.
Proof.
  intros l.
  assert (Hne : texture_material_template (statics with_template)
                <> COGL_INVALID_HANDLE) by (vm_compute; discriminate).
  assert (Hlt : live (world with_template)
                     (texture_material_template (statics with_template)))
    by (vm_compute; split; [reflexivity | discriminate]).
  assert (Hlh : live (world with_template) 3%N)
    by (vm_compute; split; [reflexivity | discriminate]).
  split; [exact scripted_contract|].
  split; [exact Hne | split; [exact Hlt | split; [exact Hlh|]]].
  exact (@earlier_handles_are_left_alone scripted cogl1_color
           scripted_contract cogl_1_18 l with_template 3%N Hne Hlt Hlh).
Defined.
